(** * go-steam: the trade-offer engine

    A shallow embedding of the trade-offer part of the package [steam]
    (the [TradeOffer] data model, the query functions, the mutation
    functions, the receipt scraper and the per-offer facade), together
    with the properties of it that the specification states.

    The package is a thin layer over [net/http], [encoding/json],
    [regexp] and [time].  What those libraries answer is an input of
    the model: the HTTP client is an oracle from requests to
    [(resp, err)] pairs, a response body is given by what [io.ReadAll]
    and [json.Decoder.Decode] make of it, the wall clock is a sequence
    of readings.  The three compiled patterns of the source are
    embedded as executable matchers over strings. *)

From Stdlib Require Import ZArith NArith Ascii String DecimalString Bool.
From stdpp Require Import base option list strings gmap fin_maps.

Local Open Scope string_scope.

(** ** Machine integers and their decimal rendering *)

(** [int64] arithmetic wraps around (two's complement). *)
Definition int64_min : Z := - 2 ^ 63.
Definition int64_max : Z := 2 ^ 63 - 1.

Definition int64_wrap (z : Z) : Z := ((z + 2 ^ 63) `mod` 2 ^ 64 - 2 ^ 63)%Z.

Definition int64_add (a b : Z) : Z := int64_wrap (a + b).

(** [strconv.FormatUint(n, 10)] *)
Definition strconv_FormatUint (n : N) : string :=
  NilZero.string_of_uint (N.to_uint n).

(** [strconv.FormatInt(z, 10)] *)
Definition strconv_FormatInt (z : Z) : string :=
  NilZero.string_of_int (Z.to_int z).

(** ** Errors *)

(** The three sentinels of the package, errors made on the spot by
    [errors.New] and [fmt.Errorf], and errors handed up from a library
    ([net/http], [encoding/json], [io]). *)
Inductive error : Type :=
| ErrReceiptMatch
| ErrCannotAcceptActive
| ErrCannotFindOfferInfo
| errors_New (msg : string)
| fmt_Errorf (msg : string)
| lib_error (pkg msg : string).

Definition error_Error (e : error) : string :=
  match e with
  | ErrReceiptMatch => "unable to match items in trade receipt"
  | ErrCannotAcceptActive => "unable to accept a non-active trade"
  | ErrCannotFindOfferInfo => "unable to match data from trade offer url"
  | errors_New msg => msg
  | fmt_Errorf msg => msg
  | lib_error pkg msg => pkg +:+ ": " +:+ msg
  end.

#[global] Instance error_eq_dec : EqDecision error.
Proof. solve_decision. Defined.

(** ** Constants of the package *)

Definition TradeStateNone : N := 0.
Definition TradeStateInvalid : N := 1.
Definition TradeStateActive : N := 2.
Definition TradeStateAccepted : N := 3.
Definition TradeStateCountered : N := 4.
Definition TradeStateExpired : N := 5.
Definition TradeStateCanceled : N := 6.
Definition TradeStateDeclined : N := 7.
Definition TradeStateInvalidItems : N := 8.
Definition TradeStateCreatedNeedsConfirmation : N := 9.
Definition TradeStateCanceledByTwoFactor : N := 10.
Definition TradeStateInEscrow : N := 11.

Definition TradeConfirmationNone : N := 0.
Definition TradeConfirmationEmail : N := 1.
Definition TradeConfirmationMobileApp : N := 2.
Definition TradeConfirmationMobile : N := 3.

Definition TradeFilterNone : N := 0.
Definition TradeFilterSentOffers : N := N.shiftl 1 0.
Definition TradeFilterRecvOffers : N := N.shiftl 1 1.
Definition TradeFilterActiveOnly : N := N.shiftl 1 3.
Definition TradeFilterHistoricalOnly : N := N.shiftl 1 4.
Definition TradeFilterItemDescriptions : N := N.shiftl 1 5.

(** ** [net/url]: [Values], [QueryEscape], [Encode] *)

Definition ascii_in_range (lo hi c : ascii) : bool :=
  (N.leb (N_of_ascii lo) (N_of_ascii c)) && (N.leb (N_of_ascii c) (N_of_ascii hi)).

Definition is_alnum (c : ascii) : bool :=
  ascii_in_range "a" "z" c || ascii_in_range "A" "Z" c || ascii_in_range "0" "9" c.

(** The bytes [QueryEscape] leaves alone: letters, digits and [-_.~]. *)
Definition url_unreserved (c : ascii) : bool :=
  is_alnum c || Ascii.eqb c "-" || Ascii.eqb c "_" || Ascii.eqb c "." || Ascii.eqb c "~".

Definition upperhex (n : N) : ascii :=
  if N.ltb n 10 then ascii_of_N (48 + n) else ascii_of_N (55 + n).

Fixpoint url_QueryEscape (s : string) : string :=
  match s with
  | EmptyString => EmptyString
  | String c s' =>
      if url_unreserved c then String c (url_QueryEscape s')
      else if Ascii.eqb c " " then String "+" (url_QueryEscape s')
      else String "%" (String (upperhex (N.shiftr (N_of_ascii c) 4))
                         (String (upperhex (N.land (N_of_ascii c) 15))
                            (url_QueryEscape s')))
  end.

(** [url.Values] is [map[string][]string]. *)
Abbreviation url_Values := (gmap string (list string)).

Definition Values_Set (k v : string) (vs : url_Values) : url_Values :=
  <[k := [v]]> vs.

Definition Values_Add (k v : string) (vs : url_Values) : url_Values :=
  <[k := (default [] (vs !! k) ++ [v])%list]> vs.

(** Keys are emitted in byte order. *)
Fixpoint insert_sorted (k : string) (ks : list string) : list string :=
  match ks with
  | [] => [k]
  | k' :: ks' => if String.leb k k' then k :: ks else k' :: insert_sorted k ks'
  end.

Definition sort_keys (ks : list string) : list string :=
  foldr insert_sorted [] ks.

Definition encode_key (k : string) (vals : list string) : list string :=
  (fun v => url_QueryEscape k +:+ "=" +:+ url_QueryEscape v) <$> vals.

Fixpoint join_amp (parts : list string) : string :=
  match parts with
  | [] => EmptyString
  | [p] => p
  | p :: ps => p +:+ "&" +:+ join_amp ps
  end.

Definition Values_Encode (vs : url_Values) : string :=
  join_amp (mbind (fun k => encode_key k (default [] (vs !! k)))
              (sort_keys (fst <$> map_to_list vs))).

(** ** Data model *)

Record EconItem : Type := mkEconItem {
  AssetID : string;
  InstanceID : string;
  ClassID : string;
  AppID : N;
  ContextID : string;
  Amount : string;
  Missing : bool;
  EstUSD : N
}.

Module EconDesc.
Record t : Type := mk { Type_ : string; Value : string; Name : string; Color : string }.
End EconDesc.

Module EconTag.
Record t : Type := mk {
  Category : string;
  InternalName : string;
  LocalizedCategoryName : string;
  LocalizedTagName : string;
  Color : string
}.
End EconTag.

Module EconAction.
Record t : Type := mk { Link : string; Name : string }.
End EconAction.

Module EconItemDesc.
Record t : Type := mk {
  ClassID : N;
  InstanceID : N;
  Currency : Z;
  BackgroundColor : string;
  IconURL : string;
  IconLargeURL : string;
  Tradable : Z;
  Name : string;
  NameColor : string;
  Type_ : string;
  MarketName : string;
  MarketHashName : string;
  Commodity : Z;
  MarketTradableRestriction : Z;
  MarketMarketableRestriction : Z;
  Marketable : Z;
  Actions : list (option EconAction.t);
  Tags : list (option EconTag.t);
  Descriptions : list (option EconDesc.t)
}.
End EconItemDesc.

(** A pointer that may be nil is an [option]; a slice of pointers is a
    list of options.  [uint64], [uint32] and [uint8] fields are in [N],
    [int64] fields in [Z]. *)
Record TradeOffer : Type := mkTradeOffer {
  ID : N;
  Partner : N;
  ReceiptID : N;
  RecvItems : list (option EconItem);
  SendItems : list (option EconItem);
  Message : string;
  State : N;
  ConfirmationMethod : N;
  Created : Z;
  Updated : Z;
  Expires : Z;
  EscrowEndDate : Z;
  RealTime : bool;
  IsOurOffer : bool
}.

(** Assignments to the fields [SendTradeOffer] writes. *)
Definition set_ID (v : N) (offer : TradeOffer) : TradeOffer :=
  {| ID := v;
     Partner := Partner offer;
     ReceiptID := ReceiptID offer;
     RecvItems := RecvItems offer;
     SendItems := SendItems offer;
     Message := Message offer;
     State := State offer;
     ConfirmationMethod := ConfirmationMethod offer;
     Created := Created offer;
     Updated := Updated offer;
     Expires := Expires offer;
     EscrowEndDate := EscrowEndDate offer;
     RealTime := RealTime offer;
     IsOurOffer := IsOurOffer offer |}.

Definition set_Created (v : Z) (offer : TradeOffer) : TradeOffer :=
  {| ID := ID offer;
     Partner := Partner offer;
     ReceiptID := ReceiptID offer;
     RecvItems := RecvItems offer;
     SendItems := SendItems offer;
     Message := Message offer;
     State := State offer;
     ConfirmationMethod := ConfirmationMethod offer;
     Created := v;
     Updated := Updated offer;
     Expires := Expires offer;
     EscrowEndDate := EscrowEndDate offer;
     RealTime := RealTime offer;
     IsOurOffer := IsOurOffer offer |}.

Definition set_Updated (v : Z) (offer : TradeOffer) : TradeOffer :=
  {| ID := ID offer;
     Partner := Partner offer;
     ReceiptID := ReceiptID offer;
     RecvItems := RecvItems offer;
     SendItems := SendItems offer;
     Message := Message offer;
     State := State offer;
     ConfirmationMethod := ConfirmationMethod offer;
     Created := Created offer;
     Updated := v;
     Expires := Expires offer;
     EscrowEndDate := EscrowEndDate offer;
     RealTime := RealTime offer;
     IsOurOffer := IsOurOffer offer |}.

Definition set_Expires (v : Z) (offer : TradeOffer) : TradeOffer :=
  {| ID := ID offer;
     Partner := Partner offer;
     ReceiptID := ReceiptID offer;
     RecvItems := RecvItems offer;
     SendItems := SendItems offer;
     Message := Message offer;
     State := State offer;
     ConfirmationMethod := ConfirmationMethod offer;
     Created := Created offer;
     Updated := Updated offer;
     Expires := v;
     EscrowEndDate := EscrowEndDate offer;
     RealTime := RealTime offer;
     IsOurOffer := IsOurOffer offer |}.

Definition set_RealTime (v : bool) (offer : TradeOffer) : TradeOffer :=
  {| ID := ID offer;
     Partner := Partner offer;
     ReceiptID := ReceiptID offer;
     RecvItems := RecvItems offer;
     SendItems := SendItems offer;
     Message := Message offer;
     State := State offer;
     ConfirmationMethod := ConfirmationMethod offer;
     Created := Created offer;
     Updated := Updated offer;
     Expires := Expires offer;
     EscrowEndDate := EscrowEndDate offer;
     RealTime := v;
     IsOurOffer := IsOurOffer offer |}.

Definition set_IsOurOffer (v : bool) (offer : TradeOffer) : TradeOffer :=
  {| ID := ID offer;
     Partner := Partner offer;
     ReceiptID := ReceiptID offer;
     RecvItems := RecvItems offer;
     SendItems := SendItems offer;
     Message := Message offer;
     State := State offer;
     ConfirmationMethod := ConfirmationMethod offer;
     Created := Created offer;
     Updated := Updated offer;
     Expires := Expires offer;
     EscrowEndDate := EscrowEndDate offer;
     RealTime := RealTime offer;
     IsOurOffer := v |}.

Definition set_ConfirmationMethod (v : N) (offer : TradeOffer) : TradeOffer :=
  {| ID := ID offer;
     Partner := Partner offer;
     ReceiptID := ReceiptID offer;
     RecvItems := RecvItems offer;
     SendItems := SendItems offer;
     Message := Message offer;
     State := State offer;
     ConfirmationMethod := v;
     Created := Created offer;
     Updated := Updated offer;
     Expires := Expires offer;
     EscrowEndDate := EscrowEndDate offer;
     RealTime := RealTime offer;
     IsOurOffer := IsOurOffer offer |}.

Definition set_State (v : N) (offer : TradeOffer) : TradeOffer :=
  {| ID := ID offer;
     Partner := Partner offer;
     ReceiptID := ReceiptID offer;
     RecvItems := RecvItems offer;
     SendItems := SendItems offer;
     Message := Message offer;
     State := v;
     ConfirmationMethod := ConfirmationMethod offer;
     Created := Created offer;
     Updated := Updated offer;
     Expires := Expires offer;
     EscrowEndDate := EscrowEndDate offer;
     RealTime := RealTime offer;
     IsOurOffer := IsOurOffer offer |}.

Record TradeOfferResponse : Type := mkTradeOfferResponse {
  Offer : option TradeOffer;
  SentOffers : list (option TradeOffer);
  ReceivedOffers : list (option TradeOffer);
  Descriptions : list (option EconItemDesc.t)
}.

Record APIResponse : Type := mkAPIResponse {
  Inner : option TradeOfferResponse
}.

(** The [Response] struct local to [SendTradeOffer]. *)
Module SendResponse.
Record t : Type := mk {
  ErrorMessage : string;
  ID : N;
  MobileConfirmationRequired : bool;
  EmailConfirmationRequired : bool;
  EmailDomain : string
}.
End SendResponse.

(** The [Response] struct local to [AcceptTradeOffer]. *)
Module AcceptResponse.
Record t : Type := mk { ErrorMessage : string }.
End AcceptResponse.

(** [SteamID] is declared in another file of the package; here a value
    is given by what the two methods the engine calls on it return. *)
Record SteamID : Type := mkSteamID {
  ToString : string;
  GetAccountID : N
}.

(** ** [net/http], [encoding/json], [time]: the environment *)

(** A response body is a stream the engine consumes in exactly one of
    two ways, [io.ReadAll] or [json.NewDecoder(body).Decode(&v)] at one
    of three struct types; a body is given by the outcome of each. *)
Record ReadCloser : Type := mkBody {
  io_ReadAll : error + string;
  json_Decode_APIResponse : error + APIResponse;
  json_Decode_SendResponse : error + SendResponse.t;
  json_Decode_AcceptResponse : error + AcceptResponse.t
}.

Module Response.
Record t : Type := mk {
  StatusCode : Z;
  Header_Get : string → string;
  Body : ReadCloser
}.
End Response.

Module Request.
Record t : Type := mk {
  Method : string;
  URL : string;
  Header : gmap string (list string);
  Body : string
}.

Definition Header_Add (k v : string) (req : t) : t :=
  mk (Method req) (URL req) (Values_Add k v (Header req)) (Body req).

Definition Header_Set (k v : string) (req : t) : t :=
  mk (Method req) (URL req) (Values_Set k v (Header req)) (Body req).
End Request.

Definition http_StatusOK : Z := 200.
Definition http_MethodPost : string := "POST".
Definition http_MethodGet : string := "GET".

(** The HTTP client: what comes back for a request, which may depend
    on the requests made before it. *)
Record Client : Type := mkClient {
  Do : list Request.t → Request.t → option Response.t * option error
}.

(** [Session] is declared in another file of the package; these are the
    fields the engine reads. *)
Record Session : Type := mkSession {
  client : Client;
  apiKey : string;
  sessionID : string
}.

(** Values handed to [json.Marshal] as [interface{}]. *)
#[warnings="-register-all"] Inductive gvalue : Type :=
| VBool (b : bool)
| VInt (z : Z)
| VAssets (items : list (option EconItem))
| VEmptyStructs
| VMap (entries : list (string * gvalue)).

(** What does not change during a call: the wall clock (its n-th
    reading, in seconds), and the two library calls whose failure the
    engine checks for. *)
Record Env : Type := mkEnv {
  wallclock : nat → Z;
  json_Marshal_result : gvalue → error + string;
  http_NewRequest_error : string → string → option error
}.

(** What a call changes: the requests sent so far (oldest first), the
    number of clock readings taken, the number of bodies closed, and
    the lines written by [println]. *)
Record World : Type := mkWorld {
  requests : list Request.t;
  ticks : nat;
  closed : nat;
  printed : list string
}.

Inductive Result (A : Type) : Type :=
| Done (a : A)
| Panic (msg : string).
Arguments Done {A} a.
Arguments Panic {A} msg.

Definition Go (A : Type) : Type := Env → World → Result A * World.

#[global] Instance Go_ret : MRet Go := λ A a _ w, (Done a, w).

#[global] Instance Go_bind : MBind Go := λ A B f m env w,
  match m env w with
  | (Done a, w') => f a env w'
  | (Panic msg, w') => (Panic msg, w')
  end.

Definition panic {A : Type} (msg : string) : Go A := λ _ w, (Panic msg, w).

Definition println (line : string) : Go unit := λ _ w,
  (Done (), mkWorld (requests w) (ticks w) (closed w) (printed w ++ [line])%list).

(** [time.Now().Unix()] *)
Definition time_Now_Unix : Go Z := λ env w,
  (Done (int64_wrap (wallclock env (ticks w))),
   mkWorld (requests w) (S (ticks w)) (closed w) (printed w)).

Definition json_Marshal (v : gvalue) : Go (error + string) := λ env w,
  (Done (json_Marshal_result env v), w).

Definition http_NewRequest (method url body : string) : Go (error + Request.t) := λ env w,
  (Done match http_NewRequest_error env method url with
        | Some e => inl e
        | None => inr (Request.mk method url ∅ body)
        end, w).

Definition client_Do (c : Client) (req : Request.t) : Go (option Response.t * option error) :=
  λ _ w, (Done (Do c (requests w) req),
          mkWorld (requests w ++ [req])%list (ticks w) (closed w) (printed w)).

(** [client.Get(url)] and [client.PostForm(url, data)] build the
    request and hand it to [Do]. *)
Definition request_Get (url : string) : Request.t :=
  Request.mk http_MethodGet url ∅ EmptyString.

Definition request_PostForm (url : string) (data : url_Values) : Request.t :=
  Request.Header_Set "Content-Type" "application/x-www-form-urlencoded"
    (Request.mk http_MethodPost url ∅ (Values_Encode data)).

Definition client_Get (c : Client) (url : string) : Go (option Response.t * option error) :=
  client_Do c (request_Get url).

Definition client_PostForm (c : Client) (url : string) (data : url_Values)
  : Go (option Response.t * option error) :=
  client_Do c (request_PostForm url data).

(** [if resp != nil { defer resp.Body.Close() }]: the body is closed
    when the rest of the function is left, also by a panic. *)
Definition defer_Close {A : Type} (resp : option Response.t) (rest : Go A) : Go A := λ env w,
  match resp with
  | None => rest env w
  | Some _ =>
      let '(r, w') := rest env w in
      (r, mkWorld (requests w') (ticks w') (S (closed w')) (printed w'))
  end.

(** ** The compiled patterns *)

(** The matchers work byte by byte.  Every literal and every class of
    the two patterns is ASCII, and no byte of a multi-byte UTF-8
    sequence is ASCII, so the matches are those [regexp] finds rune by
    rune: leftmost first, [+] greedy, [+?] lazy, [.] anything but a
    line feed. *)

Fixpoint strip_prefix (p s : string) : option string :=
  match p, s with
  | EmptyString, _ => Some s
  | String a p', String b s' => if Ascii.eqb a b then strip_prefix p' s' else None
  | String _ _, EmptyString => None
  end.

Definition starts_with (p s : string) : bool := bool_decide (is_Some (strip_prefix p s)).

Fixpoint take_string (n : nat) (s : string) : string :=
  match n, s with
  | S n', String c s' => String c (take_string n' s')
  | _, _ => EmptyString
  end.

(** Longest prefix of [s] whose bytes satisfy [p]. *)
Fixpoint span_while (p : ascii → bool) (s : string) : string :=
  match s with
  | String c s' => if p c then String c (span_while p s') else EmptyString
  | EmptyString => EmptyString
  end.

(** A match: the matched text and the text of each group, as
    [FindStringSubmatch] returns them. *)
Abbreviation submatch := (list string).

(** [offerInfoExp = token=([a-zA-Z0-9-_]+)]: the class holds letters,
    digits, the hyphen and the underscore. *)
Definition offerInfo_class (c : ascii) : bool :=
  is_alnum c || Ascii.eqb c "-" || Ascii.eqb c "_".

Definition offerInfoExp_at (s : string) : option submatch :=
  match strip_prefix "token=" s with
  | Some rest =>
      match span_while offerInfo_class rest with
      | EmptyString => None
      | cap => Some ["token=" +:+ cap; cap]
      end
  | None => None
  end.

(** [receiptExp = oItem =\s(.+?});]: one white-space byte, then the
    shortest non-empty run without a line feed that is followed by
    [};]; the group is that run and the brace. *)
Definition is_space (c : ascii) : bool :=
  Ascii.eqb c " " || Ascii.eqb c "009" || Ascii.eqb c "010" || Ascii.eqb c "012" || Ascii.eqb c "013".

(** Length of the shortest admissible run at the head of [s], given
    that [n] bytes of it were taken already. *)
Fixpoint lazy_run (n : nat) (s : string) : option nat :=
  if (negb (Nat.eqb n 0) && starts_with "};" s)%bool then Some n
  else match s with
       | EmptyString => None
       | String c s' => if Ascii.eqb c "010" then None else lazy_run (S n) s'
       end.

Definition receiptExp_at (s : string) : option submatch :=
  match strip_prefix "oItem =" s with
  | Some (String c rest) =>
      if is_space c then
        match lazy_run 0 rest with
        | Some n =>
            let cap := take_string n rest +:+ "}" in
            Some ["oItem =" +:+ String c cap +:+ ";"; cap]
        | None => None
        end
      else None
  | _ => None
  end.

(** The leftmost match, or [nil]. *)
Fixpoint find_first (at_ : string → option submatch) (s : string) : option submatch :=
  match at_ s with
  | Some m => Some m
  | None => match s with
            | EmptyString => None
            | String _ s' => find_first at_ s'
            end
  end.

(** All successive matches, none overlapping another: after a match
    the search resumes where it ended ([skip] counts the bytes of the
    last match still to pass). *)
Fixpoint find_all (at_ : string → option submatch) (skip : nat) (s : string) : list submatch :=
  match skip with
  | S skip' => match s with
               | EmptyString => []
               | String _ s' => find_all at_ skip' s'
               end
  | O => match at_ s with
         | Some m =>
             m :: match s with
                  | EmptyString => []
                  | String _ s' => find_all at_ (String.length (default EmptyString (head m)) - 1) s'
                  end
         | None => match s with
                   | EmptyString => []
                   | String _ s' => find_all at_ 0 s'
                   end
         end
  end.

(** [re.FindStringSubmatch(s)]: [nil] when there is no match. *)
Definition offerInfoExp_FindStringSubmatch (s : string) : option submatch :=
  find_first offerInfoExp_at s.

Definition offerInfoExp_FindAllStringSubmatch (s : string) : list submatch :=
  find_all offerInfoExp_at 0 s.

(** [re.FindAllSubmatch(b, -1)]: [nil] when there is no match. *)
Definition receiptExp_FindAllSubmatch (b : string) : option (list submatch) :=
  match find_all receiptExp_at 0 b with
  | [] => None
  | ms => Some ms
  end.

(** ** The engine *)

Definition testBit (bits bit : N) : bool := N.eqb (N.land bits bit) bit.

Section Engine.

(** Declared in other files of the package: the base URL of the web
    API, the type of inventory items, and [json.Unmarshal] at that
    type. *)
Variable APIBaseUrl : string.
Variable InventoryItem : Type.
Variable json_Unmarshal_InventoryItem : string → error + InventoryItem.

Definition apiGetTradeOffer : string := APIBaseUrl +:+ "/IEconService/GetTradeOffer/v1/?".
Definition apiGetTradeOffers : string := APIBaseUrl +:+ "/IEconService/GetTradeOffers/v1/?".
Definition apiGetTradeOffersSummary : string :=
  APIBaseUrl +:+ "/IEconService/GetTradeOffersSummary/v1/?".
Definition apiDeclineTradeOffer : string := APIBaseUrl +:+ "/IEconService/DeclineTradeOffer/v1/".
Definition apiCancelTradeOffer : string := APIBaseUrl +:+ "/IEconService/CancelTradeOffer/v1/".

Definition GetTradeOffer (session : Session) (id : N)
  : Go (option TradeOffer * option error) :=
  '(resp, err) ← client_Get (client session)
      (apiGetTradeOffer +:+ Values_Encode
         (<["key" := [apiKey session]]>
            (<["tradeofferid" := [strconv_FormatUint id]]> ∅)));
  defer_Close resp
    match err with
    | Some e => mret (None, Some e)
    | None =>
    match resp with
    | None => mret (None, Some (errors_New "invalid response"))
    | Some resp =>
    match json_Decode_APIResponse (Response.Body resp) with
    | inl e => mret (None, Some e)
    | inr response =>
        match Inner response with
        | None => panic "invalid memory address or nil pointer dereference"
        | Some inner => mret (Offer inner, None)
        end
    end end end.

(** The query parameters [GetTradeOffers] builds; [timeCutOff] is
    [timeCutOff.Unix()]. *)
Definition GetTradeOffers_params (session : Session) (filter : N) (timeCutOff : Z)
  : url_Values :=
  let params : url_Values := <["key" := [apiKey session]]> ∅ in
  let params :=
    if testBit filter TradeFilterSentOffers
    then Values_Set "get_sent_offers" "1" params else params in
  let params :=
    if testBit filter TradeFilterRecvOffers
    then Values_Set "get_received_offers" "1" params else params in
  let params :=
    if testBit filter TradeFilterActiveOnly
    then Values_Set "time_historical_cutoff" (strconv_FormatInt timeCutOff)
           (Values_Set "active_only" "1" params)
    else params in
  let params :=
    if testBit filter TradeFilterItemDescriptions
    then Values_Set "get_descriptions" "1" params else params in
  let params :=
    if testBit filter TradeFilterHistoricalOnly
    then Values_Set "historical_only" "1" params else params in
  params.

Definition GetTradeOffers (session : Session) (filter : N) (timeCutOff : Z)
  : Go (option TradeOfferResponse * option error) :=
  let params := GetTradeOffers_params session filter timeCutOff in
  println (Values_Encode params);;
  '(resp, err) ← client_Get (client session) (apiGetTradeOffers +:+ Values_Encode params);
  defer_Close resp
    match err with
    | Some e => mret (None, Some e)
    | None =>
    match resp with
    | None => mret (None, Some (errors_New "invalid response"))
    | Some resp =>
    match json_Decode_APIResponse (Response.Body resp) with
    | inl e => mret (None, Some e)
    | inr response => mret (Inner response, None)
    end end end.

Definition GetMyTradeToken (session : Session) : Go (string * option error) :=
  '(resp, err) ← client_Get (client session)
      "https://steamcommunity.com/my/tradeoffers/privacy";
  defer_Close resp
    match err with
    | Some e => mret (EmptyString, Some e)
    | None =>
    match resp with
    | None => mret (EmptyString, Some (errors_New "invalid response"))
    | Some resp =>
    if negb (Z.eqb (Response.StatusCode resp) http_StatusOK)
    then mret (EmptyString,
               Some (fmt_Errorf ("http error: " +:+ strconv_FormatInt (Response.StatusCode resp))))
    else
    match io_ReadAll (Response.Body resp) with
    | inl e => mret (EmptyString, Some e)
    | inr body =>
        match offerInfoExp_FindStringSubmatch body with
        | None => mret (EmptyString, Some ErrCannotFindOfferInfo)
        | Some m =>
            if negb (Nat.eqb (length m) 2)
            then mret (EmptyString, Some ErrCannotFindOfferInfo)
            else match m !! 1%nat with
                 | Some token => mret (token, None)
                 | None => panic "index out of range"
                 end
        end
    end end end.

Definition SendTradeOffer (session : Session) (offer : TradeOffer) (sid : SteamID)
    (token : string) : Go (TradeOffer * option error) :=
  let content :=
    VMap [("newversion", VBool true);
          ("version", VInt 3);
          ("me", VMap [("assets", VAssets (SendItems offer));
                       ("currency", VEmptyStructs);
                       ("ready", VBool false)]);
          ("them", VMap [("assets", VAssets (RecvItems offer));
                         ("currency", VEmptyStructs);
                         ("ready", VBool false)])] in
  marshalled ← json_Marshal content;
  match marshalled with
  | inl e => mret (offer, Some e)
  | inr contentJSON =>
  built ← http_NewRequest http_MethodPost "https://steamcommunity.com/tradeoffer/new/send"
    (Values_Encode
       (<["sessionid" := [sessionID session]]>
       (<["serverid" := ["1"]]>
       (<["partner" := [ToString sid]]>
       (<["tradeoffermessage" := [Message offer]]>
       (<["json_tradeoffer" := [contentJSON]]>
       (<["trade_offer_create_params" :=
            ["{" +:+ String "034" "trade_offer_access_token" +:+ String "034" ":"
                 +:+ String "034" token +:+ String "034" "}"]]> ∅)))))));
  match built with
  | inl e => mret (offer, Some e)
  | inr req =>
  let req := Request.Header_Add "Referer"
    ("https://steamcommunity.com/tradeoffer/new/?" +:+ Values_Encode
       (<["partner" := [strconv_FormatUint (GetAccountID sid)]]>
       (<["token" := [token]]> ∅))) req in
  let req := Request.Header_Set "Content-Type" "application/x-www-form-urlencoded" req in
  '(resp, err) ← client_Do (client session) req;
  defer_Close resp
    match err with
    | Some e => mret (offer, Some e)
    | None =>
    match resp with
    | None => mret (offer, Some (errors_New "invalid response"))
    | Some resp =>
    match json_Decode_SendResponse (Response.Body resp) with
    | inl e => mret (offer, Some e)
    | inr response =>
        if negb (Nat.eqb (String.length (SendResponse.ErrorMessage response)) 0)
        then mret (offer, Some (errors_New (SendResponse.ErrorMessage response)))
        else if N.eqb (SendResponse.ID response) 0
        then mret (offer, Some (errors_New "no OfferID included"))
        else
          let offer := set_ID (SendResponse.ID response) offer in
          now1 ← time_Now_Unix;
          let offer := set_Created now1 offer in
          now2 ← time_Now_Unix;
          let offer := set_Updated now2 offer in
          let offer := set_Expires (int64_add (Created offer) (14 * 24 * 60 * 60)) offer in
          let offer := set_RealTime false offer in
          let offer := set_IsOurOffer true offer in
          if SendResponse.MobileConfirmationRequired response
          then
            let offer := set_ConfirmationMethod TradeConfirmationMobileApp offer in
            let offer := set_State TradeStateCreatedNeedsConfirmation offer in
            mret (offer, None)
          else
            let offer := set_State TradeStateActive offer in
            mret (offer, None)
    end end end
  end end.

(** The loop of [GetTradeReceivedItems]: [k] runs over the indices of
    [m], [rest] is what of [m] is still to visit. *)
Fixpoint receipt_loop (k : nat) (rest : list submatch)
    (items : list (option InventoryItem))
  : Result (list (option InventoryItem) * option error) :=
  match rest with
  | [] => Done (items, None)
  | mk :: rest' =>
      match mk !! 1%nat with
      | None => Panic "index out of range"
      | Some fragment =>
          match json_Unmarshal_InventoryItem fragment with
          | inl e => Done ([], Some e)
          | inr item => receipt_loop (S k) rest' (<[k := Some item]> items)
          end
      end
  end.

Definition GetTradeReceivedItems (session : Session) (receiptID : N)
  : Go (list (option InventoryItem) * option error) :=
  '(resp, err) ← client_Get (client session)
      ("https://steamcommunity.com/trade/" +:+ strconv_FormatUint receiptID +:+ "/receipt");
  defer_Close resp
    match err with
    | Some e => mret ([], Some e)
    | None =>
    match resp with
    | None => mret ([], Some (errors_New "invalid response"))
    | Some resp =>
    if negb (Z.eqb (Response.StatusCode resp) http_StatusOK)
    then mret ([], Some (fmt_Errorf ("http error: " +:+ strconv_FormatInt (Response.StatusCode resp))))
    else
    match io_ReadAll (Response.Body resp) with
    | inl e => mret ([], Some e)
    | inr body =>
        match receiptExp_FindAllSubmatch body with
        | None => mret ([], Some ErrReceiptMatch)
        | Some m =>
            let items := replicate (length m) None in
            λ _ w, (receipt_loop 0 m items, w)
        end
    end end end.

Definition DeclineTradeOffer (session : Session) (id : N) : Go (option error) :=
  '(resp, err) ← client_PostForm (client session) apiDeclineTradeOffer
      (<["key" := [apiKey session]]>
         (<["tradeofferid" := [strconv_FormatUint id]]> ∅));
  defer_Close resp
    match err with
    | Some e => mret (Some e)
    | None =>
    match resp with
    | None => mret (Some (errors_New "invalid response"))
    | Some resp =>
        let result := Response.Header_Get resp "x-eresult" in
        if negb (String.eqb result "1")
        then mret (Some (fmt_Errorf ("cannot decline trade: " +:+ result)))
        else mret None
    end end.

Definition CancelTradeOffer (session : Session) (id : N) : Go (option error) :=
  '(resp, err) ← client_PostForm (client session) apiCancelTradeOffer
      (<["key" := [apiKey session]]>
         (<["tradeofferid" := [strconv_FormatUint id]]> ∅));
  defer_Close resp
    match err with
    | Some e => mret (Some e)
    | None =>
    match resp with
    | None => mret (Some (errors_New "invalid response"))
    | Some resp =>
        let result := Response.Header_Get resp "x-eresult" in
        if negb (String.eqb result "1")
        then mret (Some (fmt_Errorf ("cannot cancel trade: " +:+ result)))
        else mret None
    end end.

Definition AcceptTradeOffer (session : Session) (id : N) : Go (option error) :=
  let tid := strconv_FormatUint id in
  let postURL := "https://steamcommunity.com/tradeoffer/" +:+ tid +:+ "/" in
  let data := Values_Encode
    (<["sessionid" := [sessionID session]]>
    (<["serverid" := ["1"]]>
    (<["tradeofferid" := [tid]]> ∅))) in
  built ← http_NewRequest http_MethodPost (postURL +:+ "accept") data;
  match built with
  | inl e => mret (Some e)
  | inr req =>
  let req := Request.Header_Add "Referer" postURL req in
  let req := Request.Header_Set "Content-Type"
               "application/x-www-form-urlencoded; charset=UTF-8" req in
  '(resp, err) ← client_Do (client session) req;
  defer_Close resp
    match err with
    | Some e => mret (Some e)
    | None =>
    match resp with
    | None => mret (Some (errors_New "invalid response"))
    | Some resp =>
    if negb (Z.eqb (Response.StatusCode resp) http_StatusOK)
    then mret (Some (fmt_Errorf ("http error: " +:+ strconv_FormatInt (Response.StatusCode resp))))
    else
    match json_Decode_AcceptResponse (Response.Body resp) with
    | inl e => mret (Some e)
    | inr response =>
        if negb (Nat.eqb (String.length (AcceptResponse.ErrorMessage response)) 0)
        then mret (Some (errors_New (AcceptResponse.ErrorMessage response)))
        else mret None
    end end end
  end.

(** The facade.  [Send] hands back the offer as the call leaves it. *)
Definition Send (offer : TradeOffer) (session : Session) (sid : SteamID) (token : string)
  : Go (TradeOffer * option error) :=
  SendTradeOffer session offer sid token.

Definition Accept (offer : TradeOffer) (session : Session) : Go (option error) :=
  AcceptTradeOffer session (ID offer).

Definition Cancel (offer : TradeOffer) (session : Session) : Go (option error) :=
  if IsOurOffer offer
  then CancelTradeOffer session (ID offer)
  else DeclineTradeOffer session (ID offer).

End Engine.

(** ** Sample data *)

Definition json_syntax_error : error := lib_error "json" "invalid character".

Definition body_text (text : string) : ReadCloser :=
  mkBody (inr text) (inl json_syntax_error) (inl json_syntax_error) (inl json_syntax_error).

Definition body_api (r : APIResponse) : ReadCloser :=
  mkBody (inl (lib_error "io" "body consumed")) (inr r)
    (inl json_syntax_error) (inl json_syntax_error).

Definition body_send (r : SendResponse.t) : ReadCloser :=
  mkBody (inl (lib_error "io" "body consumed")) (inl json_syntax_error)
    (inr r) (inl json_syntax_error).

Definition body_accept (r : AcceptResponse.t) : ReadCloser :=
  mkBody (inl (lib_error "io" "body consumed")) (inl json_syntax_error)
    (inl json_syntax_error) (inr r).

Definition respond (status : Z) (body : ReadCloser) : Client :=
  mkClient (λ _ _, (Some (Response.mk status (λ _, EmptyString) body), None)).

Definition respond_eresult (code : string) : Client :=
  mkClient (λ _ _,
    (Some (Response.mk 200
             (λ k, if String.eqb k "x-eresult" then code else EmptyString)
             (body_text EmptyString)), None)).

Definition unreachable : Client :=
  mkClient (λ _ _, (None, Some (lib_error "net/http" "connection refused"))).

Definition session_of (c : Client) : Session := mkSession c "KEY" "SID".

Definition env0 : Env :=
  mkEnv (λ n, 1700000000 + Z.of_nat n)%Z (λ _, inr "{}") (λ _ _, None).

Definition world0 : World := mkWorld [] 0 0 [].

Definition item0 : EconItem := mkEconItem "1" "0" "2" 730 "2" "1" false 0.

(** An offer received from account 42 and already accepted. *)
Definition accepted_offer : TradeOffer :=
  mkTradeOffer 77 42 0 [Some item0] [] "hi" TradeStateAccepted TradeConfirmationNone
    1600000000 1600000100 1601209600 0 false false.

(** An offer not yet sent, whose confirmation method was left at
    [Email] by an earlier use of the record. *)
Definition draft_offer : TradeOffer :=
  mkTradeOffer 0 42 0 [] [Some item0] "hi" TradeStateNone TradeConfirmationEmail
    0 0 0 0 true false.

Definition partner42 : SteamID := mkSteamID "76561197960265770" 42.

Definition sent_ok (mobile email : bool) : SendResponse.t :=
  SendResponse.mk EmptyString 9001 mobile email EmptyString.

(** A stand-in for the inventory items of the package and their
    decoder: a fragment decodes when it opens with a brace. *)
Definition toy_Unmarshal (fragment : string) : error + string :=
  if starts_with "{" fragment then inr fragment else inl json_syntax_error.

Definition page_two_tokens : string :=
  "https://steamcommunity.com/tradeoffer/new/?partner=42&token=AbC-1_x&amp;token=zzz".

Definition receipt_page : string :=
  "var oItem; oItem = {a:1}; x(); oItem = {b:{c:2}};" +:+ String "010" "oItem =  [3]};".


Definition session_sending (r : SendResponse.t) : Session :=
  session_of (respond 200 (body_send r)).

(** What [draft_offer] is after a send the server acknowledged with
    offer 9001, at the clock of [env0]. *)
Definition draft_offer_sent (mobile : bool) : TradeOffer :=
  mkTradeOffer 9001 42 0 [] [Some item0] "hi"
    (if mobile then TradeStateCreatedNeedsConfirmation else TradeStateActive)
    (if mobile then TradeConfirmationMobileApp else TradeConfirmationEmail)
    1700000000 1700000001 1701209600 0 false true.

Definition rejected : SendResponse.t :=
  SendResponse.mk "There was an error sending your trade offer." 0 false false EmptyString.

Definition sample_APIBaseUrl : string := "https://api.steampowered.com".

(** A server that accepts whatever it is asked to accept. *)
Definition accepting_session : Session :=
  session_of (respond 200 (body_accept (AcceptResponse.mk EmptyString))).

(** The envelope [{response: {}}]: a response object without an offer. *)
Definition empty_envelope : APIResponse :=
  mkAPIResponse (Some (mkTradeOfferResponse None [] [] [])).

Definition envelope_of (offer : TradeOffer) : APIResponse :=
  mkAPIResponse (Some (mkTradeOfferResponse (Some offer) [] [] [])).

(** The group of a match. *)
Definition fragment_of (m : submatch) : string := default EmptyString (m !! 1%nat).

(** Decoding fragment by fragment, in order, giving up at the first
    that fails: what the specification says of the receipt scraper,
    to be compared with [receipt_loop]. *)
Fixpoint decode_all {Item : Type} (unmarshal : string → error + Item) (fragments : list string)
  : error + list Item :=
  match fragments with
  | [] => inr []
  | f :: fs =>
      match unmarshal f with
      | inl e => inl e
      | inr item =>
          match decode_all unmarshal fs with
          | inl e => inl e
          | inr items => inr (item :: items)
          end
      end
  end.

Definition page_session (page : string) : Session :=
  session_of (respond 200 (body_text page)).

Definition page_response (page : string) : Response.t :=
  Response.mk 200 (λ _, EmptyString) (body_text page).

Definition good_receipt_page : string := "var oItem; oItem = {a:1}; x(); oItem = {b:{c:2}};".

Definition page_late_token : string := "token=&x=1&token=a1".

(** The value [SendTradeOffer] marshals and the request it sends once
    the value is marshalled to [contentJSON], spelled out for the
    statements below. *)
Definition SendTradeOffer_content (offer : TradeOffer) : gvalue :=
  VMap [("newversion", VBool true);
        ("version", VInt 3);
        ("me", VMap [("assets", VAssets (SendItems offer));
                     ("currency", VEmptyStructs);
                     ("ready", VBool false)]);
        ("them", VMap [("assets", VAssets (RecvItems offer));
                       ("currency", VEmptyStructs);
                       ("ready", VBool false)])].

Definition send_url : string := "https://steamcommunity.com/tradeoffer/new/send".

Definition SendTradeOffer_request (session : Session) (offer : TradeOffer) (sid : SteamID)
    (token contentJSON : string) : Request.t :=
  Request.Header_Set "Content-Type" "application/x-www-form-urlencoded"
    (Request.Header_Add "Referer"
       ("https://steamcommunity.com/tradeoffer/new/?" +:+ Values_Encode
          (<["partner" := [strconv_FormatUint (GetAccountID sid)]]>
          (<["token" := [token]]> ∅)))
       (Request.mk http_MethodPost send_url ∅
          (Values_Encode
             (<["sessionid" := [sessionID session]]>
             (<["serverid" := ["1"]]>
             (<["partner" := [ToString sid]]>
             (<["tradeoffermessage" := [Message offer]]>
             (<["json_tradeoffer" := [contentJSON]]>
             (<["trade_offer_create_params" :=
                  ["{" +:+ String "034" "trade_offer_access_token" +:+ String "034" ":"
                       +:+ String "034" token +:+ String "034" "}"]]> ∅))))))))).

From Stdlib Require DecimalPos DecimalN.

(** ** More of the package: escrow pages, the offers summary, the app version *)

Record TradeOffersSummaryResponse : Type := mkTradeOffersSummaryResponse {
  PendingReceivedCount : Z;
  NewReceivedCount : Z;
  UpdatedReceivedCount : Z;
  HistoricalReceivedCount : Z;
  PendingSentCount : Z;
  NewlyAcceptedSentCount : Z;
  UpdatedSentCount : Z;
  HistoricalSentCount : Z;
  EscrowReceivedCount : Z;
  EscrowSendCount : Z
}.

(** The anonymous envelope of [GetTradeOffersSummary]. *)
Module SummaryEnvelope.
Record t : Type := mk { Inner : option TradeOffersSummaryResponse }.
End SummaryEnvelope.

(** The two local structs of [GetRequiredSteamAppVersion]. *)
Module UpToDateCheck.
Record UpToDateCheckResponse : Type := mkInner { RequiredVersion : Z }.
Record Response : Type := mk { Inner : UpToDateCheckResponse }.
End UpToDateCheck.

Record EscrowSteamGuardInfo : Type := mkEscrowSteamGuardInfo {
  MyDays : Z;
  ThemDays : Z;
  ErrorMsg : string
}.

(** *** [strconv.ParseInt(s, 10, 32)] *)

Definition strconv_ErrSyntax : error := lib_error "strconv" "invalid syntax".
Definition strconv_ErrRange : error := lib_error "strconv" "value out of range".

Definition is_digit (c : ascii) : bool := ascii_in_range "0" "9" c.

(** The number a run of decimal digits denotes, most significant digit
    first; [None] at the first byte that is no digit. *)
Fixpoint parse_digits (acc : N) (s : string) : option N :=
  match s with
  | EmptyString => Some acc
  | String c s' =>
      if is_digit c then parse_digits (acc * 10 + (N_of_ascii c - 48)) s' else None
  end.

(** [ParseUint(s, 10, 32)]: the scan stops with a range error, and the
    largest [uint32], as soon as the number read so far exceeds it;
    a byte that is no digit is a syntax error. *)
Definition uint32_max : N := N.shiftl 1 32 - 1.

Fixpoint strconv_ParseUint32_from (acc : N) (s : string) : N * option error :=
  match s with
  | EmptyString => (acc, None)
  | String c s' =>
      if is_digit c then
        let n1 := (acc * 10 + (N_of_ascii c - 48))%N in
        if N.ltb uint32_max n1 then (uint32_max, Some strconv_ErrRange)
        else strconv_ParseUint32_from n1 s'
      else (0%N, Some strconv_ErrSyntax)
  end.

Definition strconv_ParseUint32 (s : string) : N * option error :=
  match s with
  | EmptyString => (0%N, Some strconv_ErrSyntax)
  | _ => strconv_ParseUint32_from 0 s
  end.

(** An optional sign, then [ParseUint]; a syntax error gives 0, and a
    value outside [int32] is cut to the nearest bound and reported as
    out of range. *)
Definition strconv_ParseInt32 (s : string) : Z * option error :=
  match s with
  | EmptyString => (0%Z, Some strconv_ErrSyntax)
  | String c rest =>
      let neg := Ascii.eqb c "-" in
      let digits := if (Ascii.eqb c "+" || Ascii.eqb c "-")%bool then rest else s in
      let '(un, err) := strconv_ParseUint32 digits in
      if bool_decide (err = Some strconv_ErrSyntax) then (0%Z, err)
      else
        let cutoff : N := N.shiftl 1 31 in
        if (negb neg && N.leb cutoff un)%bool
        then (Z.of_N cutoff - 1, Some strconv_ErrRange)%Z
        else if (neg && N.ltb cutoff un)%bool
        then (- Z.of_N cutoff, Some strconv_ErrRange)%Z
        else ((if neg then - Z.of_N un else Z.of_N un)%Z, None)
  end.

(** *** The three patterns of the escrow page *)

(** What is left of [s] after its longest prefix of bytes satisfying [p]. *)
Fixpoint skip_while (p : ascii → bool) (s : string) : string :=
  match s with
  | String c s' => if p c then skip_while p s' else s
  | EmptyString => EmptyString
  end.

Fixpoint last_byte (s : string) : string :=
  match s with
  | EmptyString => EmptyString
  | String c EmptyString => s
  | String _ s' => last_byte s'
  end.

(** A pattern [prefix(\d+);]: the longest run of digits after the
    prefix, which a semicolon must follow. *)
Definition digits_at (prefix s : string) : option submatch :=
  match strip_prefix prefix s with
  | Some rest =>
      match span_while is_digit rest with
      | EmptyString => None
      | digits =>
          if starts_with ";" (skip_while is_digit rest)
          then Some [prefix +:+ digits +:+ ";"; digits]
          else None
      end
  | None => None
  end.

(** [myEscrowExp = var g_daysMyEscrow = (\d+);] *)
Definition myEscrowExp_at : string → option submatch := digits_at "var g_daysMyEscrow = ".

(** [themEscrowExp = var g_daysTheirEscrow = (\d+);] *)
Definition themEscrowExp_at : string → option submatch := digits_at "var g_daysTheirEscrow = ".

Definition not_lt (c : ascii) : bool := negb (Ascii.eqb c "<").

Definition error_msg_open : string :=
  "<div id=" +:+ String "034" "error_msg" +:+ String "034" ">".

(** [errorMsgExp = <div id="error_msg">\s*([^<]+)\s*</div>].  Between
    the opening tag and the first [<] after it, which must open
    [</div>], the first [\s*] takes the leading white space, as much as
    leaves the group one byte; the group takes all the rest, so nothing
    is left for the second [\s*]. *)
Definition errorMsgExp_at (s : string) : option submatch :=
  match strip_prefix error_msg_open s with
  | Some rest =>
      let between := span_while not_lt rest in
      match between with
      | EmptyString => None
      | _ =>
          if starts_with "</div>" (skip_while not_lt rest)
          then
            let group := match skip_while is_space between with
                         | EmptyString => last_byte between
                         | text => text
                         end in
            Some [error_msg_open +:+ between +:+ "</div>"; group]
          else None
      end
  | None => None
  end.

Definition myEscrowExp_FindStringSubmatch (s : string) : option submatch :=
  find_first myEscrowExp_at s.

Definition themEscrowExp_FindStringSubmatch (s : string) : option submatch :=
  find_first themEscrowExp_at s.

Definition errorMsgExp_FindStringSubmatch (s : string) : option submatch :=
  find_first errorMsgExp_at s.

(** *** The functions *)

Definition GetEscrow (session : Session) (url : string)
  : Go (option EscrowSteamGuardInfo * option error) :=
  '(resp, err) ← client_Get (client session) url;
  defer_Close resp
    match err with
    | Some e => mret (None, Some e)
    | None =>
    match resp with
    | None => mret (None, Some (errors_New "invalid response"))
    | Some resp =>
    if negb (Z.eqb (Response.StatusCode resp) http_StatusOK)
    then mret (None,
               Some (fmt_Errorf ("http error: " +:+ strconv_FormatInt (Response.StatusCode resp))))
    else
    match io_ReadAll (Response.Body resp) with
    | inl e => mret (None, Some e)
    | inr body =>
        let my :=
          match myEscrowExp_FindStringSubmatch body with
          | Some [_; group] => fst (strconv_ParseInt32 group)
          | _ => 0%Z
          end in
        let them :=
          match themEscrowExp_FindStringSubmatch body with
          | Some [_; group] => fst (strconv_ParseInt32 group)
          | _ => 0%Z
          end in
        let errMsg :=
          match errorMsgExp_FindStringSubmatch body with
          | Some [_; group] => group
          | _ => EmptyString
          end in
        mret (Some (mkEscrowSteamGuardInfo my them errMsg), None)
    end end end.

Definition GetEscrowGuardInfo (session : Session) (sid : SteamID) (token : string)
  : Go (option EscrowSteamGuardInfo * option error) :=
  GetEscrow session ("https://steamcommunity.com/tradeoffer/new/?" +:+ Values_Encode
    (<["partner" := [strconv_FormatUint (GetAccountID sid)]]>
    (<["token" := [token]]> ∅))).

Definition GetEscrowGuardInfoForTrade (session : Session) (offerID : N)
  : Go (option EscrowSteamGuardInfo * option error) :=
  GetEscrow session ("https://steamcommunity.com/tradeoffer/" +:+ strconv_FormatUint offerID).

Section Queries.

(** Declared in another file of the package: the base URL of the web
    API.  [json.Decoder.Decode] at the two envelope types of this
    section is given by what it makes of a body. *)
Variable APIBaseUrl : string.
Variable json_Decode_Summary : ReadCloser → error + SummaryEnvelope.t.
Variable json_Decode_UpToDateCheck : ReadCloser → error + UpToDateCheck.Response.

Definition apiUpToDateCheck : string := APIBaseUrl +:+ "/ISteamApps/UpToDateCheck/v1?".

Definition GetTradeOffersSummary_params (session : Session) (lastVisitTime : N) : url_Values :=
  let params : url_Values := <["key" := [apiKey session]]> ∅ in
  if negb (N.eqb lastVisitTime 0)
  then Values_Add "time_last_visit" (strconv_FormatUint lastVisitTime) params
  else params.

Definition GetTradeOffersSummary (session : Session) (lastVisitTime : N)
  : Go (option TradeOffersSummaryResponse * option error) :=
  let params := GetTradeOffersSummary_params session lastVisitTime in
  '(resp, err) ← client_Get (client session)
      (apiGetTradeOffersSummary APIBaseUrl +:+ Values_Encode params);
  defer_Close resp
    match err with
    | Some e => mret (None, Some e)
    | None =>
    match resp with
    | None => mret (None, Some (errors_New "invalid response"))
    | Some resp =>
    match json_Decode_Summary (Response.Body resp) with
    | inl e => mret (None, Some e)
    | inr response => mret (SummaryEnvelope.Inner response, None)
    end end end.

(** [appID] is an [int]; [strconv.Itoa] renders it in decimal. *)
Definition GetRequiredSteamAppVersion (session : Session) (appID : Z)
  : Go (Z * option error) :=
  '(resp, err) ← client_Get (client session)
      (apiUpToDateCheck +:+ Values_Encode
         (<["appid" := [strconv_FormatInt appID]]>
         (<["version" := ["0"]]> ∅)));
  defer_Close resp
    match err with
    | Some e => mret (0%Z, Some e)
    | None =>
    match resp with
    | None => panic "invalid memory address or nil pointer dereference"
    | Some resp =>
    match json_Decode_UpToDateCheck (Response.Body resp) with
    | inl e => mret (0%Z, Some e)
    | inr response =>
        mret (UpToDateCheck.RequiredVersion (UpToDateCheck.Inner response), None)
    end end end.

End Queries.

(** ** What the statements below speak of *)

(** At most one request goes out, and the body of a response that is
    not nil is closed once. *)
Definition one_round_trip (c : Client) (w w' : World) : Prop :=
  (requests w' = requests w ∧ closed w' = closed w) ∨
  ∃ req, requests w' = (requests w ++ [req])%list ∧
         closed w' = match fst (Do c (requests w) req) with
                     | Some _ => S (closed w)
                     | None => closed w
                     end.

Fixpoint string_forallb (p : ascii → bool) (s : string) : bool :=
  match s with
  | EmptyString => true
  | String c s' => p c && string_forallb p s'
  end.

Definition is_line_feed (c : ascii) : bool := Ascii.eqb c "010".

Definition not_line_feed (c : ascii) : bool := negb (is_line_feed c).

Definition int32_max : Z := 2 ^ 31 - 1.

(** More sample data. *)
Definition escrow_page (mine : N) (rest : string) : string :=
  "var g_daysMyEscrow = " +:+ strconv_FormatUint mine +:+ ";" +:+ rest.

Definition toy_Decode_Summary (body : ReadCloser) : error + SummaryEnvelope.t :=
  match io_ReadAll body with
  | inr "{}" => inr (SummaryEnvelope.mk None)
  | _ => inl json_syntax_error
  end.

Definition version_body : string := "{13872}".

Definition toy_Decode_UpToDateCheck (body : ReadCloser) : error + UpToDateCheck.Response :=
  match io_ReadAll body with
  | inr "{13872}" => inr (UpToDateCheck.mk (UpToDateCheck.mkInner 13872))
  | _ => inl json_syntax_error
  end.

(** Where [p] first occurs in [s], counted in bytes from the start. *)
Fixpoint find_index (p s : string) : option nat :=
  if starts_with p s then Some 0%nat
  else match s with
       | EmptyString => None
       | String _ s' => S <$> find_index p s'
       end.

Definition error_page : string :=
  "<!DOCTYPE html><div>" +:+ error_msg_open +:+ ("  " +:+ "Trade ban  ") +:+ "</div>" +:+ "<p>".

(** The request [AcceptTradeOffer] sends, spelled out. *)
Definition accept_url (id : N) : string :=
  ("https://steamcommunity.com/tradeoffer/" +:+ strconv_FormatUint id +:+ "/") +:+ "accept".

Definition AcceptTradeOffer_request (session : Session) (id : N) : Request.t :=
  Request.Header_Set "Content-Type" "application/x-www-form-urlencoded; charset=UTF-8"
    (Request.Header_Add "Referer"
       ("https://steamcommunity.com/tradeoffer/" +:+ strconv_FormatUint id +:+ "/")
       (Request.mk http_MethodPost (accept_url id) ∅
          (Values_Encode
             (<["sessionid" := [sessionID session]]>
             (<["serverid" := ["1"]]>
             (<["tradeofferid" := [strconv_FormatUint id]]> ∅)))))).

(** The five flags [GetTradeOffers] tests. *)
Definition TradeFilter_known : N :=
  N.lor TradeFilterSentOffers
    (N.lor TradeFilterRecvOffers
       (N.lor TradeFilterActiveOnly
          (N.lor TradeFilterHistoricalOnly TradeFilterItemDescriptions))).

(** [draft_offer] as it would be after an earlier send was accepted. *)
Definition stale_offer : TradeOffer :=
  mkTradeOffer 555 42 0 [] [Some item0] "hi" TradeStateAccepted TradeConfirmationEmail
    1600000000 1600000100 1601209600 0 true true.
(** ** Facts about the library layer *)

Example Values_Encode_ex :
  Values_Encode (Values_Set "b" "x y" (Values_Set "a" "1&2" ∅)) = "a=1%262&b=x+y".
Proof. vm_compute. reflexivity. Qed.

Example FormatUint_ex : strconv_FormatUint 0 = "0" ∧ strconv_FormatUint 1234 = "1234".
Proof. split; reflexivity. Qed.

Example FormatInt_ex : strconv_FormatInt (-15) = "-15".
Proof. reflexivity. Qed.

Example offerInfoExp_ex :
  offerInfoExp_FindStringSubmatch page_two_tokens = Some ["token=AbC-1_x"; "AbC-1_x"]
  ∧ offerInfoExp_FindAllStringSubmatch page_two_tokens
    = [["token=AbC-1_x"; "AbC-1_x"]; ["token=zzz"; "zzz"]]
  ∧ offerInfoExp_FindStringSubmatch "token=&token" = None.
Proof. vm_compute. auto. Qed.

Example receiptExp_ex :
  receiptExp_FindAllSubmatch receipt_page
  = Some [["oItem = {a:1};"; "{a:1}"]; ["oItem = {b:{c:2}};"; "{b:{c:2}}"];
          ["oItem =  [3]};"; " [3]}"]]
  ∧ receiptExp_FindAllSubmatch "oItem = };" = None
  ∧ receiptExp_FindAllSubmatch "oItem = };};" = Some [["oItem = };};"; "};}"]].
Proof. vm_compute. auto. Qed.

(** ** Facts about [SendTradeOffer] *)

Ltac run_go :=
  unfold mbind, Go_bind, mret, Go_ret, json_Marshal, http_NewRequest, client_Get,
    client_PostForm, client_Do, defer_Close, time_Now_Unix, println, panic in *;
  cbn beta iota in *.

(** What a call does, check by check.  Each of the seven ways to fail
    hands back the offer as it was, with no clock reading taken; the
    one way to succeed rewrites the offer from the decoded response
    and two clock readings. *)
Lemma SendTradeOffer_run session offer sid token env w :
  SendTradeOffer session offer sid token env w =
  match json_Marshal_result env (SendTradeOffer_content offer) with
  | inl e => (Done (offer, Some e), w)
  | inr contentJSON =>
  match http_NewRequest_error env http_MethodPost send_url with
  | Some e => (Done (offer, Some e), w)
  | None =>
  let req := SendTradeOffer_request session offer sid token contentJSON in
  let sent := mkWorld (requests w ++ [req])%list (ticks w) (closed w) (printed w) in
  let shut := mkWorld (requests w ++ [req])%list (ticks w) (S (closed w)) (printed w) in
  match Do (client session) (requests w) req with
  | (None, Some e) => (Done (offer, Some e), sent)
  | (Some _, Some e) => (Done (offer, Some e), shut)
  | (None, None) => (Done (offer, Some (errors_New "invalid response")), sent)
  | (Some resp, None) =>
  match json_Decode_SendResponse (Response.Body resp) with
  | inl e => (Done (offer, Some e), shut)
  | inr response =>
      if negb (String.eqb (SendResponse.ErrorMessage response) EmptyString)
      then (Done (offer, Some (errors_New (SendResponse.ErrorMessage response))), shut)
      else if N.eqb (SendResponse.ID response) 0
      then (Done (offer, Some (errors_New "no OfferID included")), shut)
      else
        let mobile := SendResponse.MobileConfirmationRequired response in
        let now1 := int64_wrap (wallclock env (ticks w)) in
        let now2 := int64_wrap (wallclock env (S (ticks w))) in
        (Done (mkTradeOffer (SendResponse.ID response) (Partner offer) (ReceiptID offer)
                 (RecvItems offer) (SendItems offer) (Message offer)
                 (if mobile then TradeStateCreatedNeedsConfirmation else TradeStateActive)
                 (if mobile then TradeConfirmationMobileApp else ConfirmationMethod offer)
                 now1 now2 (int64_add now1 1209600) (EscrowEndDate offer) false true,
               None),
         mkWorld (requests w ++ [req])%list (S (S (ticks w))) (S (closed w)) (printed w))
  end end end end.
Proof.
  unfold SendTradeOffer. run_go. fold (SendTradeOffer_content offer). fold send_url.
  destruct (json_Marshal_result env _) as [e|contentJSON]; [done|].
  destruct (http_NewRequest_error env _ _) as [e|]; [done|].
  fold (SendTradeOffer_request session offer sid token contentJSON). cbn zeta.
  destruct (Do _ _ _) as [[resp|] [e|]]; cbn; try done.
  destruct (json_Decode_SendResponse _) as [e|response]; cbn; [done|].
  destruct (SendResponse.ErrorMessage response) as [|c msg]; cbn; [|done].
  destruct (N.eqb _ 0); cbn; [done|].
  destruct (SendResponse.MobileConfirmationRequired response); done.
Qed.

(** Every call returns, and in one of two ways: with an error and the
    offer as it was, no clock reading taken; or without an error, after
    a response was received and decoded, with the offer rewritten from
    that response and two clock readings. *)
Lemma SendTradeOffer_cases session offer sid token env w :
  ∃ r w', SendTradeOffer session offer sid token env w = (Done r, w') ∧
    ((∃ e, r = (offer, Some e) ∧ ticks w' = ticks w) ∨
     (∃ req resp response,
        Do (client session) (requests w) req = (Some resp, None) ∧
        requests w' = (requests w ++ [req])%list ∧
        ticks w' = S (S (ticks w)) ∧
        json_Decode_SendResponse (Response.Body resp) = inr response ∧
        SendResponse.ErrorMessage response = EmptyString ∧
        SendResponse.ID response ≠ 0%N ∧
        let mobile := SendResponse.MobileConfirmationRequired response in
        let now1 := int64_wrap (wallclock env (ticks w)) in
        let now2 := int64_wrap (wallclock env (S (ticks w))) in
        r = (mkTradeOffer (SendResponse.ID response) (Partner offer) (ReceiptID offer)
               (RecvItems offer) (SendItems offer) (Message offer)
               (if mobile then TradeStateCreatedNeedsConfirmation else TradeStateActive)
               (if mobile then TradeConfirmationMobileApp else ConfirmationMethod offer)
               now1 now2 (int64_add now1 1209600) (EscrowEndDate offer) false true,
             None))).
Proof.
  rewrite SendTradeOffer_run.
  destruct (json_Marshal_result env _) as [e|contentJSON]; [eauto 8|].
  destruct (http_NewRequest_error env _ _) as [e|]; [eauto 8|]. cbn zeta.
  set (req := SendTradeOffer_request session offer sid token contentJSON).
  destruct (Do (client session) (requests w) req) as [[resp|] [e|]] eqn:Hdo; eauto 8.
  destruct (json_Decode_SendResponse (Response.Body resp)) as [e|response] eqn:Hdec;
    [eauto 8|].
  destruct (String.eqb_spec (SendResponse.ErrorMessage response) EmptyString) as [Hmsg|Hmsg];
    cbn; [|eauto 8].
  destruct (N.eqb_spec (SendResponse.ID response) 0) as [Hid|Hid]; [eauto 8|].
  eexists _, _. split; [reflexivity|]. right. exists req, resp, response.
  repeat split; done.
Qed.

Lemma SendTradeOffer_success session offer sid token env w offer' w' :
  SendTradeOffer session offer sid token env w = (Done (offer', None), w') →
  ∃ req resp response,
    Do (client session) (requests w) req = (Some resp, None) ∧
    json_Decode_SendResponse (Response.Body resp) = inr response ∧
    ticks w' = S (S (ticks w)) ∧
    let mobile := SendResponse.MobileConfirmationRequired response in
    let now1 := int64_wrap (wallclock env (ticks w)) in
    let now2 := int64_wrap (wallclock env (S (ticks w))) in
    offer' = mkTradeOffer (SendResponse.ID response) (Partner offer) (ReceiptID offer)
               (RecvItems offer) (SendItems offer) (Message offer)
               (if mobile then TradeStateCreatedNeedsConfirmation else TradeStateActive)
               (if mobile then TradeConfirmationMobileApp else ConfirmationMethod offer)
               now1 now2 (int64_add now1 1209600) (EscrowEndDate offer) false true.
Proof.
  intros Hrun.
  destruct (SendTradeOffer_cases session offer sid token env w) as (r & w1 & Heq & Hr).
  rewrite Hrun in Heq. injection Heq as <- <-.
  destruct Hr as [(e & He & _)|(req & resp & response & Hdo & _ & Ht & Hdec & _ & _ & Hr)].
  - discriminate He.
  - cbn zeta in Hr. injection Hr as ->. exists req, resp, response. auto.
Qed.

Lemma int64_wrap_small z : (int64_min ≤ z ≤ int64_max)%Z → int64_wrap z = z.
Proof.
  unfold int64_min, int64_max, int64_wrap. intros H.
  rewrite Z.mod_small; lia.
Qed.

Lemma int64_wrap_range z : (int64_min ≤ int64_wrap z ≤ int64_max)%Z.
Proof.
  unfold int64_min, int64_max, int64_wrap.
  pose proof (Z.mod_pos_bound (z + 2 ^ 63) (2 ^ 64)). lia.
Qed.

(** C2. Whenever the send request is answered by a response whose
    body decodes with an empty [strError] and an offer ID,
    [SendTradeOffer] succeeds, and the offer ends in state
    [CreatedNeedsConfirmation] with confirmation method [MobileApp] if
    the decoded response has [needs_mobile_confirmation] set and in
    state [Active] if not.  Conversely every successful call went that
    way, for the request it sent: the state is
    [CreatedNeedsConfirmation] with method [MobileApp] if and only if
    [needs_mobile_confirmation] is set, and otherwise [Active];
    [needs_email_confirmation] plays no part. *)
Theorem SendTradeOffer_confirmation_state session offer sid token env w :
  (∀ contentJSON resp response,
     json_Marshal_result env (SendTradeOffer_content offer) = inr contentJSON →
     http_NewRequest_error env http_MethodPost send_url = None →
     Do (client session) (requests w)
        (SendTradeOffer_request session offer sid token contentJSON) = (Some resp, None) →
     json_Decode_SendResponse (Response.Body resp) = inr response →
     SendResponse.ErrorMessage response = EmptyString →
     SendResponse.ID response ≠ 0%N →
     ∃ offer' w',
       SendTradeOffer session offer sid token env w = (Done (offer', None), w') ∧
       requests w'
       = (requests w ++ [SendTradeOffer_request session offer sid token contentJSON])%list ∧
       State offer' = (if SendResponse.MobileConfirmationRequired response
                       then TradeStateCreatedNeedsConfirmation else TradeStateActive) ∧
       (SendResponse.MobileConfirmationRequired response = true →
        ConfirmationMethod offer' = TradeConfirmationMobileApp)) ∧
  (∀ offer' w',
     SendTradeOffer session offer sid token env w = (Done (offer', None), w') →
     ∃ contentJSON resp response,
       json_Marshal_result env (SendTradeOffer_content offer) = inr contentJSON ∧
       requests w'
       = (requests w ++ [SendTradeOffer_request session offer sid token contentJSON])%list ∧
       Do (client session) (requests w)
          (SendTradeOffer_request session offer sid token contentJSON) = (Some resp, None) ∧
       json_Decode_SendResponse (Response.Body resp) = inr response ∧
       ((State offer' = TradeStateCreatedNeedsConfirmation ∧
         ConfirmationMethod offer' = TradeConfirmationMobileApp)
        ↔ SendResponse.MobileConfirmationRequired response = true) ∧
       (SendResponse.MobileConfirmationRequired response = false →
        State offer' = TradeStateActive) ∧
       (State offer' = TradeStateCreatedNeedsConfirmation →
        SendResponse.MobileConfirmationRequired response = true) ∧
       (SendResponse.EmailConfirmationRequired response = true →
        SendResponse.MobileConfirmationRequired response = false →
        State offer' = TradeStateActive)).
Proof.
  split.
  - intros contentJSON resp response Hmarshal Hbuilt Hdo Hdec Hmsg Hid.
    rewrite SendTradeOffer_run, Hmarshal, Hbuilt. cbn zeta.
    rewrite Hdo, Hdec, Hmsg. cbn [String.eqb negb].
    apply N.eqb_neq in Hid. rewrite Hid.
    eexists _, _. split; [reflexivity|]. cbn.
    destruct (SendResponse.MobileConfirmationRequired response); done.
  - intros offer' w'. rewrite SendTradeOffer_run.
    destruct (json_Marshal_result env _) as [e|contentJSON]; [done|].
    destruct (http_NewRequest_error env _ _); [done|]. cbn zeta.
    destruct (Do _ _ _) as [[resp|] [e|]] eqn:Hdo; try done.
    destruct (json_Decode_SendResponse _) as [e|response] eqn:Hdec; [done|].
    destruct (negb _); [done|]. destruct (N.eqb _ _); [done|].
    intros [= <- <-]. exists contentJSON, resp, response.
    repeat (split; [done|]). cbn.
    destruct (SendResponse.MobileConfirmationRequired response); cbn.
    + repeat split; done.
    + repeat split; try done. intros [H _]. discriminate H.
Qed.

Lemma SendTradeOffer_confirmation_state_witness :
  (∃ w',
     SendTradeOffer (session_sending (sent_ok true true)) draft_offer partner42 "tok"
       env0 world0 = (Done (draft_offer_sent true, None), w') ∧
     State (draft_offer_sent true) = TradeStateCreatedNeedsConfirmation ∧
     ConfirmationMethod (draft_offer_sent true) = TradeConfirmationMobileApp) ∧
  (∃ w',
     SendTradeOffer (session_sending (sent_ok false true)) draft_offer partner42 "tok"
       env0 world0 = (Done (draft_offer_sent false, None), w') ∧
     State (draft_offer_sent false) = TradeStateActive).
Proof.
  split.
  - destruct (proj1 (SendTradeOffer_confirmation_state
                       (session_sending (sent_ok true true)) draft_offer partner42 "tok"
                       env0 world0)
                "{}" (Response.mk 200 (λ _, EmptyString) (body_send (sent_ok true true)))
                (sent_ok true true) eq_refl eq_refl eq_refl eq_refl eq_refl
                ltac:(discriminate))
      as (offer' & w' & Hrun & _ & Hstate & Hmethod).
    assert (fst (SendTradeOffer (session_sending (sent_ok true true)) draft_offer partner42
                   "tok" env0 world0) = Done (draft_offer_sent true, None)) as Hfst
      by (vm_compute; reflexivity).
    rewrite Hrun in Hfst. injection Hfst as ->.
    exists w'. split; [exact Hrun|]. split; [exact Hstate|exact (Hmethod eq_refl)].
  - destruct (proj1 (SendTradeOffer_confirmation_state
                       (session_sending (sent_ok false true)) draft_offer partner42 "tok"
                       env0 world0)
                "{}" (Response.mk 200 (λ _, EmptyString) (body_send (sent_ok false true)))
                (sent_ok false true) eq_refl eq_refl eq_refl eq_refl eq_refl
                ltac:(discriminate))
      as (offer' & w' & Hrun & _ & Hstate & _).
    assert (fst (SendTradeOffer (session_sending (sent_ok false true)) draft_offer partner42
                   "tok" env0 world0) = Done (draft_offer_sent false, None)) as Hfst
      by (vm_compute; reflexivity).
    rewrite Hrun in Hfst. injection Hfst as ->.
    exists w'. split; [exact Hrun|exact Hstate].
Defined.

(** C6. After a successful [SendTradeOffer], [Created] and [Updated]
    hold the two clock readings the call took, [Expires] is
    [Created + 14*24*3600] in [int64] arithmetic (the plain sum as long
    as that fits in an [int64]), and [IsOurOffer] is set. *)
Theorem SendTradeOffer_expiry session offer sid token env w offer' w' :
  SendTradeOffer session offer sid token env w = (Done (offer', None), w') →
  Created offer' = int64_wrap (wallclock env (ticks w)) ∧
  Updated offer' = int64_wrap (wallclock env (S (ticks w))) ∧
  ticks w' = S (S (ticks w)) ∧
  Expires offer' = int64_add (Created offer') (14 * 24 * 3600) ∧
  ((Created offer' + 14 * 24 * 3600 ≤ int64_max)%Z →
   Expires offer' = (Created offer' + 14 * 24 * 3600)%Z) ∧
  IsOurOffer offer' = true.
Proof.
  intros Hrun.
  destruct (SendTradeOffer_success _ _ _ _ _ _ _ _ Hrun)
    as (req & resp & response & Hdo & Hdec & Ht & ->).
  cbn. repeat split; [exact Ht|].
  intros Hfit. unfold int64_add. apply int64_wrap_small.
    pose proof (int64_wrap_range (wallclock env (ticks w))).
    unfold int64_min, int64_max in *. lia.
Qed.

Lemma SendTradeOffer_expiry_witness :
  let run := SendTradeOffer (session_sending (sent_ok true false)) draft_offer partner42
               "tok" env0 world0 in
  run = (Done (draft_offer_sent true, None), snd run) ∧
  Created (draft_offer_sent true) = int64_wrap (wallclock env0 0) ∧
  Updated (draft_offer_sent true) = int64_wrap (wallclock env0 1) ∧
  ticks (snd run) = 2 ∧
  Expires (draft_offer_sent true) = int64_add (Created (draft_offer_sent true)) (14 * 24 * 3600) ∧
  ((Created (draft_offer_sent true) + 14 * 24 * 3600 ≤ int64_max)%Z →
   Expires (draft_offer_sent true) = (Created (draft_offer_sent true) + 14 * 24 * 3600)%Z) ∧
  IsOurOffer (draft_offer_sent true) = true.
Proof.
  intros run.
  assert (run = (Done (draft_offer_sent true, None), snd run)) as Hrun
    by (vm_compute; reflexivity).
  split; [exact Hrun|].
  exact (SendTradeOffer_expiry _ _ _ _ _ _ _ _ Hrun).
Defined.

(** C9. A [SendTradeOffer] that returns an error leaves every field of
    the offer as it was, and has not read the clock: the offer is
    written only after the last check has passed. *)
Theorem SendTradeOffer_error_keeps_offer session offer sid token env w offer' e w' :
  SendTradeOffer session offer sid token env w = (Done (offer', Some e), w') →
  offer' = offer ∧ ticks w' = ticks w.
Proof.
  intros Hrun.
  destruct (SendTradeOffer_cases session offer sid token env w) as (r & w1 & Heq & Hr).
  rewrite Hrun in Heq. injection Heq as <- <-.
  destruct Hr as [(e' & He & Ht)|(req & resp & response & _ & _ & _ & _ & _ & _ & Hr)].
  - injection He as -> _. done.
  - cbn zeta in Hr. discriminate Hr.
Qed.

Lemma SendTradeOffer_error_keeps_offer_witness :
  let run := SendTradeOffer (session_sending rejected) draft_offer partner42
               "tok" env0 world0 in
  run = (Done (draft_offer, Some (errors_New (SendResponse.ErrorMessage rejected))), snd run) ∧
  draft_offer = draft_offer ∧ ticks (snd run) = ticks world0.
Proof.
  intros run.
  assert (run = (Done (draft_offer, Some (errors_New (SendResponse.ErrorMessage rejected))),
                 snd run)) as Hrun by (vm_compute; reflexivity).
  split; [exact Hrun|].
  exact (SendTradeOffer_error_keeps_offer _ _ _ _ _ _ _ _ _ Hrun).
Defined.

(** C10. A successful [SendTradeOffer] leaves [Partner], [Message],
    [SendItems], [RecvItems], [ReceiptID] and [EscrowEndDate] as they
    were; [ConfirmationMethod] becomes [MobileApp] when the response
    asks for mobile confirmation and otherwise keeps the value it had. *)
Theorem SendTradeOffer_frame session offer sid token env w offer' w' :
  SendTradeOffer session offer sid token env w = (Done (offer', None), w') →
  Partner offer' = Partner offer ∧
  Message offer' = Message offer ∧
  SendItems offer' = SendItems offer ∧
  RecvItems offer' = RecvItems offer ∧
  ReceiptID offer' = ReceiptID offer ∧
  EscrowEndDate offer' = EscrowEndDate offer ∧
  ∃ req resp response,
    Do (client session) (requests w) req = (Some resp, None) ∧
    json_Decode_SendResponse (Response.Body resp) = inr response ∧
    ConfirmationMethod offer' =
      (if SendResponse.MobileConfirmationRequired response
       then TradeConfirmationMobileApp else ConfirmationMethod offer) ∧
    ID offer' = SendResponse.ID response ∧
    RealTime offer' = false.
Proof.
  intros Hrun.
  destruct (SendTradeOffer_success _ _ _ _ _ _ _ _ Hrun)
    as (req & resp & response & Hdo & Hdec & Ht & ->).
  cbn. repeat (split; [reflexivity|]).
  exists req, resp, response. auto.
Qed.

Lemma SendTradeOffer_frame_witness :
  let run := SendTradeOffer (session_sending (sent_ok false false)) draft_offer partner42
               "tok" env0 world0 in
  run = (Done (draft_offer_sent false, None), snd run) ∧
  ConfirmationMethod (draft_offer_sent false) = TradeConfirmationEmail ∧
  Partner (draft_offer_sent false) = Partner draft_offer ∧
  Message (draft_offer_sent false) = Message draft_offer ∧
  SendItems (draft_offer_sent false) = SendItems draft_offer ∧
  RecvItems (draft_offer_sent false) = RecvItems draft_offer ∧
  ReceiptID (draft_offer_sent false) = ReceiptID draft_offer ∧
  EscrowEndDate (draft_offer_sent false) = EscrowEndDate draft_offer ∧
  ∃ req resp response,
    Do (respond 200 (body_send (sent_ok false false))) [] req = (Some resp, None) ∧
    json_Decode_SendResponse (Response.Body resp) = inr response ∧
    ConfirmationMethod (draft_offer_sent false) =
      (if SendResponse.MobileConfirmationRequired response
       then TradeConfirmationMobileApp else ConfirmationMethod draft_offer) ∧
    ID (draft_offer_sent false) = SendResponse.ID response ∧
    RealTime (draft_offer_sent false) = false.
Proof.
  intros run.
  assert (run = (Done (draft_offer_sent false, None), snd run)) as Hrun
    by (vm_compute; reflexivity).
  split; [exact Hrun|]. split; [reflexivity|].
  exact (SendTradeOffer_frame _ _ _ _ _ _ _ _ Hrun).
Defined.

(** ** Facts about [GetTradeOffers] *)

Lemma testBit_single (bits : N) (k : N) : testBit bits (N.shiftl 1 k) = N.testbit bits k.
Proof.
  unfold testBit. rewrite N.shiftl_1_l.
  destruct (N.testbit bits k) eqn:Hk.
  - apply N.eqb_eq. apply N.bits_inj. intros i.
    rewrite N.land_spec, N.pow2_bits_eqb.
    destruct (N.eqb_spec k i) as [->|]; [rewrite Hk|]; cbn; [done|apply andb_false_r].
  - apply N.eqb_neq. intros Heq.
    assert (N.testbit (N.land bits (2 ^ k)) k = N.testbit (2 ^ k) k) as Hb by (by rewrite Heq).
    rewrite N.land_spec, N.pow2_bits_true, Hk in Hb. discriminate Hb.
Qed.

Lemma QueryEscape_digits d :
  url_QueryEscape (NilEmpty.string_of_uint d) = NilEmpty.string_of_uint d.
Proof. induction d; cbn; [done|by rewrite IHd..]. Qed.

Lemma QueryEscape_FormatUint n :
  url_QueryEscape (strconv_FormatUint n) = strconv_FormatUint n.
Proof.
  unfold strconv_FormatUint, NilZero.string_of_uint.
  destruct (N.to_uint n); [done|apply QueryEscape_digits..].
Qed.

Lemma QueryEscape_FormatInt z :
  url_QueryEscape (strconv_FormatInt z) = strconv_FormatInt z.
Proof.
  unfold strconv_FormatInt, NilZero.string_of_int, NilZero.string_of_uint.
  destruct (Z.to_int z) as [d|d]; destruct d; cbn; try done;
    rewrite ?QueryEscape_digits; done.
Qed.

(** C7. Each query parameter of [GetTradeOffers] is present exactly
    when its own flag is in the mask, each flag test reads one bit of
    the mask (bits 0, 1, 3, 4 and 5), and no other parameter is ever
    set; the query goes out as the sorted, escaped encoding of these
    parameters.  With [SentOffers | ActiveOnly] and cutoff [T] the
    encoded query is
    [active_only=1&get_sent_offers=1&key=..&time_historical_cutoff=T]
    and has no [get_received_offers]. *)
Theorem GetTradeOffers_filter_parameters APIBaseUrl session filter T env w :
  let params := GetTradeOffers_params session filter T in
  let on (flag : N) (v : list string) := if testBit filter flag then Some v else None in
  (∀ k : string, params !! k =
     if bool_decide (k = "key") then Some [apiKey session]
     else if bool_decide (k = "get_sent_offers") then on TradeFilterSentOffers ["1"]
     else if bool_decide (k = "get_received_offers") then on TradeFilterRecvOffers ["1"]
     else if bool_decide (k = "active_only") then on TradeFilterActiveOnly ["1"]
     else if bool_decide (k = "time_historical_cutoff")
          then on TradeFilterActiveOnly [strconv_FormatInt T]
     else if bool_decide (k = "get_descriptions") then on TradeFilterItemDescriptions ["1"]
     else if bool_decide (k = "historical_only") then on TradeFilterHistoricalOnly ["1"]
     else None) ∧
  (testBit filter TradeFilterSentOffers = N.testbit filter 0 ∧
   testBit filter TradeFilterRecvOffers = N.testbit filter 1 ∧
   testBit filter TradeFilterActiveOnly = N.testbit filter 3 ∧
   testBit filter TradeFilterHistoricalOnly = N.testbit filter 4 ∧
   testBit filter TradeFilterItemDescriptions = N.testbit filter 5) ∧
  requests (snd (GetTradeOffers APIBaseUrl session filter T env w))
  = (requests w ++ [request_Get (apiGetTradeOffers APIBaseUrl +:+ Values_Encode params)])%list ∧
  Values_Encode (GetTradeOffers_params session
                   (N.lor TradeFilterSentOffers TradeFilterActiveOnly) T)
  = "active_only=1&get_sent_offers=1&key=" +:+ url_QueryEscape (apiKey session)
      +:+ "&time_historical_cutoff=" +:+ strconv_FormatInt T ∧
  GetTradeOffers_params session (N.lor TradeFilterSentOffers TradeFilterActiveOnly) T
    !! "get_received_offers" = None.
Proof.
  cbn zeta. split; [|split; [|split; [|split]]].
  - intros k. unfold GetTradeOffers_params, Values_Set.
    destruct (testBit filter TradeFilterSentOffers),
             (testBit filter TradeFilterRecvOffers),
             (testBit filter TradeFilterActiveOnly),
             (testBit filter TradeFilterItemDescriptions),
             (testBit filter TradeFilterHistoricalOnly);
      cbn zeta; repeat case_bool_decide; subst; try reflexivity;
      rewrite ?lookup_insert_ne by congruence; apply lookup_empty.
  - repeat split; apply testBit_single.
  - unfold GetTradeOffers. run_go.
    destruct (Do _ _ _) as [[resp|] [e|]]; cbn; try done.
    destruct (json_Decode_APIResponse _); done.
  - rewrite <- (QueryEscape_FormatInt T). vm_compute. reflexivity.
  - vm_compute. reflexivity.
Qed.

(** ** Facts about the facade and the accept, cancel and decline calls *)

Lemma append_inj_l (p a b : string) : p +:+ a = p +:+ b → a = b.
Proof. induction p as [|c p IH]; cbn; [done|]. intros [= H]. auto. Qed.

Lemma form_encoding (key id : string) :
  Values_Encode (<["key" := [key]]> (<["tradeofferid" := [id]]> ∅))
  = "key=" +:+ url_QueryEscape key +:+ "&tradeofferid=" +:+ url_QueryEscape id.
Proof. vm_compute. reflexivity. Qed.

Lemma CancelTradeOffer_request APIBaseUrl session id env w :
  requests (snd (CancelTradeOffer APIBaseUrl session id env w))
  = (requests w ++ [request_PostForm (apiCancelTradeOffer APIBaseUrl)
       (<["key" := [apiKey session]]> (<["tradeofferid" := [strconv_FormatUint id]]> ∅))])%list.
Proof.
  unfold CancelTradeOffer. run_go.
  destruct (Do _ _ _) as [[resp|] [e|]]; cbn; try done.
  destruct (negb _); done.
Qed.

Lemma DeclineTradeOffer_request APIBaseUrl session id env w :
  requests (snd (DeclineTradeOffer APIBaseUrl session id env w))
  = (requests w ++ [request_PostForm (apiDeclineTradeOffer APIBaseUrl)
       (<["key" := [apiKey session]]> (<["tradeofferid" := [strconv_FormatUint id]]> ∅))])%list.
Proof.
  unfold DeclineTradeOffer. run_go.
  destruct (Do _ _ _) as [[resp|] [e|]]; cbn; try done.
  destruct (negb _); done.
Qed.

(** C3. [offer.Cancel()] is [CancelTradeOffer] on the offer's ID when
    [IsOurOffer] is set and [DeclineTradeOffer] on the offer's ID when
    it is not: it sends exactly one request, a form post to the cancel
    endpoint or to the decline endpoint (the two differ), whose body
    carries the offer's ID as [tradeofferid]. *)
Theorem Cancel_dispatch APIBaseUrl offer session env w :
  let endpoint := if IsOurOffer offer then apiCancelTradeOffer APIBaseUrl
                  else apiDeclineTradeOffer APIBaseUrl in
  let form : url_Values :=
    <["key" := [apiKey session]]> (<["tradeofferid" := [strconv_FormatUint (ID offer)]]> ∅) in
  Cancel APIBaseUrl offer session
  = (if IsOurOffer offer then CancelTradeOffer APIBaseUrl session (ID offer)
     else DeclineTradeOffer APIBaseUrl session (ID offer)) ∧
  requests (snd (Cancel APIBaseUrl offer session env w))
  = (requests w ++ [request_PostForm endpoint form])%list ∧
  Request.Method (request_PostForm endpoint form) = "POST" ∧
  Request.URL (request_PostForm endpoint form) = endpoint ∧
  Request.Body (request_PostForm endpoint form)
  = "key=" +:+ url_QueryEscape (apiKey session)
      +:+ "&tradeofferid=" +:+ strconv_FormatUint (ID offer) ∧
  apiCancelTradeOffer APIBaseUrl ≠ apiDeclineTradeOffer APIBaseUrl.
Proof.
  cbn zeta. split; [reflexivity|]. split; [|split; [done|split; [done|split]]].
  - unfold Cancel. destruct (IsOurOffer offer).
    + apply CancelTradeOffer_request.
    + apply DeclineTradeOffer_request.
  - cbn. rewrite form_encoding, QueryEscape_FormatUint. reflexivity.
  - unfold apiCancelTradeOffer, apiDeclineTradeOffer. intros H.
    apply append_inj_l in H. discriminate H.
Qed.

(** [Accept] never looks at the state of the offer. *)
Lemma Accept_ignores_State offer session st :
  Accept (set_State st offer) session = Accept offer session.
Proof. reflexivity. Qed.

(** C1. An offer in state [Accepted] is not refused locally by
    [offer.Accept()]: the accept request for its ID is sent, and when the
    server answers 200 with an empty [strError] the call returns no
    error. *)
Theorem Accept_of_accepted_offer_is_sent :
  State accepted_offer = TradeStateAccepted ∧
  State accepted_offer ≠ TradeStateActive ∧
  fst (Accept accepted_offer accepting_session env0 world0) = Done None ∧
  Request.URL <$> requests (snd (Accept accepted_offer accepting_session env0 world0))
  = ["https://steamcommunity.com/tradeoffer/77/accept"].
Proof. vm_compute. repeat split; done. Qed.

(** ** Facts about [GetTradeOffer] *)

(** C4, as the code has it.  The request failing, or the body not
    decoding, makes [GetTradeOffer] fail with that error; a decodable
    body whose [response] object is present makes it return that
    object's offer and no error, so a [response] object without an
    offer gives a nil offer and a nil error. *)
Theorem GetTradeOffer_outcomes APIBaseUrl session id env w :
  let answer :=
    Do (client session) (requests w)
       (request_Get (apiGetTradeOffer APIBaseUrl +:+ Values_Encode
          (<["key" := [apiKey session]]>
             (<["tradeofferid" := [strconv_FormatUint id]]> ∅)))) in
  let run := fst (GetTradeOffer APIBaseUrl session id env w) in
  (∀ resp e, answer = (resp, Some e) → run = Done (None, Some e)) ∧
  (∀ resp e, answer = (Some resp, None) →
     json_Decode_APIResponse (Response.Body resp) = inl e → run = Done (None, Some e)) ∧
  (∀ resp response inner, answer = (Some resp, None) →
     json_Decode_APIResponse (Response.Body resp) = inr response →
     Inner response = Some inner → run = Done (Offer inner, None)).
Proof.
  cbn zeta. unfold GetTradeOffer. run_go.
  repeat split.
  - intros resp e ->. destruct resp; done.
  - intros resp e -> Hdec. cbn. by rewrite Hdec.
  - intros resp response inner -> Hdec Hin. cbn. by rewrite Hdec, Hin.
Qed.

Lemma GetTradeOffer_outcomes_witness :
  fst (GetTradeOffer sample_APIBaseUrl (session_of unreachable) 77 env0 world0)
  = Done (None, Some (lib_error "net/http" "connection refused"))
  ∧ fst (GetTradeOffer sample_APIBaseUrl (page_session "<html>") 77 env0 world0)
    = Done (None, Some json_syntax_error)
  ∧ fst (GetTradeOffer sample_APIBaseUrl
           (session_of (respond 200 (body_api (envelope_of accepted_offer)))) 77 env0 world0)
    = Done (Some accepted_offer, None).
Proof.
  split; [|split].
  - exact (proj1 (GetTradeOffer_outcomes sample_APIBaseUrl (session_of unreachable) 77
                    env0 world0) None _ eq_refl).
  - exact (proj1 (proj2 (GetTradeOffer_outcomes sample_APIBaseUrl (page_session "<html>") 77
                           env0 world0)) (page_response "<html>") _ eq_refl eq_refl).
  - exact (proj2 (proj2 (GetTradeOffer_outcomes sample_APIBaseUrl
                           (session_of (respond 200 (body_api (envelope_of accepted_offer))))
                           77 env0 world0))
             (Response.mk 200 (λ _, EmptyString) (body_api (envelope_of accepted_offer)))
             (envelope_of accepted_offer)
             (mkTradeOfferResponse (Some accepted_offer) [] [] [])
             eq_refl eq_refl eq_refl).
Defined.

(** C4 as stated fails: on the envelope [{response: {}}] the call
    returns a nil offer and a nil error, not an error. *)
Lemma GetTradeOffer_empty_envelope_is_no_error :
  json_Decode_APIResponse (body_api empty_envelope) = inr empty_envelope ∧
  (∃ inner, Inner empty_envelope = Some inner ∧ Offer inner = None) ∧
  fst (GetTradeOffer sample_APIBaseUrl (session_of (respond 200 (body_api empty_envelope)))
         77 env0 world0) = Done (None, None) ∧
  ¬ ∃ offer e,
      fst (GetTradeOffer sample_APIBaseUrl (session_of (respond 200 (body_api empty_envelope)))
             77 env0 world0) = Done (offer, Some e).
Proof.
  split; [reflexivity|]. split; [eexists; split; reflexivity|].
  assert (fst (GetTradeOffer sample_APIBaseUrl
                 (session_of (respond 200 (body_api empty_envelope))) 77 env0 world0)
          = Done (None, None)) as Hrun by (vm_compute; reflexivity).
  split; [exact Hrun|]. rewrite Hrun. intros (offer & e & [=]).
Qed.

(** A body without a [response] object at all makes the call panic. *)
Lemma GetTradeOffer_missing_response_panics :
  ∃ msg, fst (GetTradeOffer sample_APIBaseUrl
                (session_of (respond 200 (body_api (mkAPIResponse None)))) 77 env0 world0)
         = Panic msg.
Proof. eexists. vm_compute. reflexivity. Qed.

(** ** Facts about the scrapers *)

Lemma find_first_head (at_ : string → option submatch) (s : string) :
  find_first at_ s = head (find_all at_ 0 s).
Proof.
  induction s as [|c s IH]; cbn; destruct (at_ _); done.
Qed.

Lemma find_all_Forall (P : submatch → Prop) (at_ : string → option submatch) :
  (∀ s m, at_ s = Some m → P m) → ∀ s skip, Forall P (find_all at_ skip s).
Proof.
  intros Hat s. induction s as [|c s IH]; intros [|skip]; cbn; try done.
  - destruct (at_ EmptyString) eqn:H; eauto.
  - destruct (at_ (String c s)) eqn:H; eauto.
Qed.

Lemma offerInfoExp_at_shape s m :
  offerInfoExp_at s = Some m → ∃ full token, m = [full; token].
Proof.
  unfold offerInfoExp_at. destruct (strip_prefix _ _); [|done].
  destruct (span_while _ _); [done|]. intros [= <-]. eauto.
Qed.

Lemma receiptExp_at_shape s m :
  receiptExp_at s = Some m → ∃ full fragment, m = [full; fragment].
Proof.
  unfold receiptExp_at. destruct (strip_prefix _ _) as [[|c rest]|]; try done.
  destruct (is_space c); [|done]. destruct (lazy_run 0 rest); [|done].
  intros [= <-]. eauto.
Qed.

(** C8, as the code has it.  Given the privacy page (status 200, body
    read), [GetMyTradeToken] fails with [ErrCannotFindOfferInfo] when
    the pattern matches nowhere, and otherwise returns the group of
    the leftmost match, however many matches follow it. *)
Theorem GetMyTradeToken_leftmost_match session env w resp body :
  Do (client session) (requests w)
     (request_Get "https://steamcommunity.com/my/tradeoffers/privacy") = (Some resp, None) →
  Response.StatusCode resp = http_StatusOK →
  io_ReadAll (Response.Body resp) = inr body →
  match offerInfoExp_FindAllStringSubmatch body with
  | [] => fst (GetMyTradeToken session env w) = Done (EmptyString, Some ErrCannotFindOfferInfo)
  | m :: _ => ∃ full token, m = [full; token] ∧
              fst (GetMyTradeToken session env w) = Done (token, None)
  end.
Proof.
  intros Hdo Hstatus Hread.
  unfold GetMyTradeToken. run_go. rewrite Hdo. cbn.
  rewrite Hstatus, Hread. cbn.
  unfold offerInfoExp_FindStringSubmatch, offerInfoExp_FindAllStringSubmatch.
  rewrite find_first_head.
  pose proof (find_all_Forall _ _ offerInfoExp_at_shape body 0) as Hall.
  destruct (find_all offerInfoExp_at 0 body) as [|m ms]; cbn; [done|].
  apply Forall_cons in Hall as [(full & token & ->) _]. cbn. eauto.
Qed.

Lemma GetMyTradeToken_leftmost_match_witness :
  match offerInfoExp_FindAllStringSubmatch page_late_token with
  | [] => fst (GetMyTradeToken (page_session page_late_token) env0 world0)
          = Done (EmptyString, Some ErrCannotFindOfferInfo)
  | m :: _ => ∃ full token, m = [full; token] ∧
      fst (GetMyTradeToken (page_session page_late_token) env0 world0) = Done (token, None)
  end.
Proof.
  apply (GetMyTradeToken_leftmost_match (page_session page_late_token) env0 world0
           (page_response page_late_token) page_late_token); reflexivity.
Defined.

(** C8 as stated fails: on a page where the pattern matches twice the
    call succeeds, with the first token. *)
Lemma GetMyTradeToken_two_matches_succeed :
  length (offerInfoExp_FindAllStringSubmatch page_two_tokens) = 2%nat ∧
  fst (GetMyTradeToken (page_session page_two_tokens) env0 world0) = Done ("AbC-1_x", None) ∧
  ¬ ∃ token e,
      fst (GetMyTradeToken (page_session page_two_tokens) env0 world0) = Done (token, Some e).
Proof.
  assert (fst (GetMyTradeToken (page_session page_two_tokens) env0 world0)
          = Done ("AbC-1_x", None)) as Hrun by (vm_compute; reflexivity).
  split; [vm_compute; reflexivity|]. split; [exact Hrun|].
  rewrite Hrun. intros (token & e & [=]).
Qed.

Section Receipt.
Context {Item : Type} (unmarshal : string → error + Item).

Lemma receipt_loop_decode_all rest : ∀ pre,
  Forall (λ m, ∃ full fragment, m = [full; fragment]) rest →
  receipt_loop Item unmarshal (length pre) rest (pre ++ replicate (length rest) None)%list
  = Done match decode_all unmarshal (fragment_of <$> rest) with
         | inl e => ([], Some e)
         | inr items => ((pre ++ (Some <$> items))%list, None)
         end.
Proof.
  induction rest as [|m rest IH]; intros pre Hshape; cbn.
  - by rewrite !app_nil_r.
  - apply Forall_cons in Hshape as [(full & fragment & ->) Hshape]. cbn.
    destruct (unmarshal fragment) as [e|item]; [done|].
    rewrite insert_app_r_alt, Nat.sub_diag by done. cbn.
    rewrite (cons_middle (Some item)), app_assoc.
    replace (S (length pre)) with (length (pre ++ [Some item])%list)
      by (rewrite length_app; cbn; lia).
    rewrite IH by done.
    destruct (decode_all unmarshal _); [done|].
    by rewrite <- app_assoc.
Qed.

Lemma decode_all_ok fragments items :
  Forall2 (λ f item, unmarshal f = inr item) fragments items →
  decode_all unmarshal fragments = inr items.
Proof.
  induction 1 as [|f item fs items Hf _ IH]; cbn; [done|]. by rewrite Hf, IH.
Qed.

Lemma decode_all_fails fragments k f e :
  fragments !! k = Some f → unmarshal f = inl e →
  ∃ e', decode_all unmarshal fragments = inl e'.
Proof.
  revert k. induction fragments as [|f0 fs IH]; intros [|k]; cbn; try done.
  - intros [= ->] ->. eauto.
  - intros Hk Hf. destruct (unmarshal f0); [eauto|].
    destruct (IH k Hk Hf) as [e' ->]. eauto.
Qed.

Lemma GetTradeReceivedItems_run session receiptID env w resp body :
  Do (client session) (requests w)
     (request_Get ("https://steamcommunity.com/trade/" +:+ strconv_FormatUint receiptID
                     +:+ "/receipt")) = (Some resp, None) →
  Response.StatusCode resp = http_StatusOK →
  io_ReadAll (Response.Body resp) = inr body →
  fst (GetTradeReceivedItems Item unmarshal session receiptID env w)
  = match find_all receiptExp_at 0 body with
    | [] => Done ([], Some ErrReceiptMatch)
    | matches => Done match decode_all unmarshal (fragment_of <$> matches) with
                      | inl e => ([], Some e)
                      | inr items => (Some <$> items, None)
                      end
    end.
Proof.
  intros Hdo Hstatus Hread.
  unfold GetTradeReceivedItems. run_go. rewrite Hdo. cbn.
  rewrite Hstatus, Hread. cbn. unfold receiptExp_FindAllSubmatch.
  pose proof (find_all_Forall _ _ receiptExp_at_shape body 0) as Hshape.
  destruct (find_all receiptExp_at 0 body) as [|m ms]; [done|]. cbn [fst].
  apply (receipt_loop_decode_all (m :: ms) [] Hshape).
Qed.

(** C5. Given the receipt page (status 200, body read), every match
    of the item pattern is the matched text and one fragment;
    [GetTradeReceivedItems] fails with [ErrReceiptMatch] when there is
    no match; when there are matches and every fragment decodes, it
    returns the decoded items, as many as there are matches and in
    the order of the matches in the body; when some fragment does
    not decode, it returns an error and no items. *)
Theorem GetTradeReceivedItems_outcomes session receiptID env w resp body :
  Do (client session) (requests w)
     (request_Get ("https://steamcommunity.com/trade/" +:+ strconv_FormatUint receiptID
                     +:+ "/receipt")) = (Some resp, None) →
  Response.StatusCode resp = http_StatusOK →
  io_ReadAll (Response.Body resp) = inr body →
  let matches := find_all receiptExp_at 0 body in
  let fragments := fragment_of <$> matches in
  let run := fst (GetTradeReceivedItems Item unmarshal session receiptID env w) in
  Forall (λ m, ∃ full fragment, m = [full; fragment]) matches ∧
  (matches = [] → run = Done ([], Some ErrReceiptMatch)) ∧
  (∀ items, matches ≠ [] →
     Forall2 (λ f item, unmarshal f = inr item) fragments items →
     run = Done (Some <$> items, None) ∧ length items = length matches) ∧
  (∀ k f e, fragments !! k = Some f → unmarshal f = inl e →
     ∃ e', run = Done ([], Some e')).
Proof.
  intros Hdo Hstatus Hread. cbn zeta.
  rewrite (GetTradeReceivedItems_run _ _ _ _ _ _ Hdo Hstatus Hread).
  split; [apply (find_all_Forall _ _ receiptExp_at_shape)|].
  destruct (find_all receiptExp_at 0 body) as [|m ms].
  - repeat split; done.
  - split; [done|]. split.
    + intros items _ Hall. rewrite (decode_all_ok _ _ Hall).
      split; [done|]. apply Forall2_length in Hall.
      by rewrite length_fmap in Hall.
    + intros k f e Hk Hf. destruct (decode_all_fails _ _ _ _ Hk Hf) as [e' ->]. eauto.
Qed.

End Receipt.

Lemma GetTradeReceivedItems_outcomes_witness :
  fst (GetTradeReceivedItems string toy_Unmarshal (page_session good_receipt_page) 5
         env0 world0)
  = Done ([Some "{a:1}"; Some "{b:{c:2}}"], None)
  ∧ (∃ e, fst (GetTradeReceivedItems string toy_Unmarshal (page_session receipt_page) 5
                 env0 world0) = Done ([], Some e))
  ∧ fst (GetTradeReceivedItems string toy_Unmarshal (page_session "<html></html>") 5
           env0 world0) = Done ([], Some ErrReceiptMatch).
Proof.
  split; [|split].
  - refine (proj1 (proj1 (proj2 (proj2
      (GetTradeReceivedItems_outcomes toy_Unmarshal (page_session good_receipt_page) 5
         env0 world0 (page_response good_receipt_page)
         good_receipt_page eq_refl eq_refl eq_refl))) ["{a:1}"; "{b:{c:2}}"] _ _)).
    + vm_compute. discriminate.
    + vm_compute. repeat constructor.
  - refine (proj2 (proj2 (proj2
      (GetTradeReceivedItems_outcomes toy_Unmarshal (page_session receipt_page) 5
         env0 world0 (page_response receipt_page)
         receipt_page eq_refl eq_refl eq_refl))) 2%nat " [3]}" json_syntax_error _ _);
      vm_compute; reflexivity.
  - refine (proj1 (proj2
      (GetTradeReceivedItems_outcomes toy_Unmarshal (page_session "<html></html>") 5
         env0 world0 (page_response "<html></html>")
         "<html></html>" eq_refl eq_refl eq_refl)) _).
    vm_compute. reflexivity.
Defined.

(** * Further properties of the package *)

(** Encoding a map whose keys are known: the keys are sorted by
    computation, the values stay as they are. *)
Ltac encode_values :=
  unfold Values_Encode;
  match goal with
  | |- context [sort_keys (fst <$> map_to_list ?m)] =>
      let ks := eval vm_compute in (sort_keys (fst <$> map_to_list m)) in
      replace (sort_keys (fst <$> map_to_list m)) with ks by (vm_compute; reflexivity)
  end;
  cbn [mbind list_bind app]; unfold Values_Set, Values_Add;
  repeat (rewrite lookup_insert_eq || rewrite lookup_insert_ne by done);
  cbn [default encode_key fmap list_fmap app join_amp].

(** ** Facts about the decimal renderings *)

Lemma parse_digits_string_of_uint d acc :
  parse_digits acc (NilEmpty.string_of_uint d)
  = Some (DecimalPos.Unsigned.of_lu (Decimal.rev d)
          + acc * 10 ^ DecimalPos.Unsigned.usize d)%N.
Proof.
  revert acc.
  induction d; intros acc; cbn [NilEmpty.string_of_uint parse_digits];
    [cbn; f_equal; lia|..];
    (change (is_digit _) with true; cbn iota; rewrite IHd; f_equal;
     unfold Decimal.rev; cbn [Decimal.revapp];
     rewrite (DecimalPos.Unsigned.of_lu_revapp d (_ Decimal.Nil));
     cbn [DecimalPos.Unsigned.usize]; rewrite N.pow_succ_r';
     cbn [DecimalPos.Unsigned.of_lu N_of_ascii]; unfold Decimal.rev; cbn; lia).
Qed.

Lemma parse_digits_FormatUint n : parse_digits 0 (strconv_FormatUint n) = Some n.
Proof.
  unfold strconv_FormatUint, NilZero.string_of_uint.
  destruct (N.to_uint n) eqn:Hn;
    [by apply (f_equal N.of_uint) in Hn; rewrite DecimalN.Unsigned.of_to in Hn; subst|..];
    rewrite <- Hn, parse_digits_string_of_uint, N.mul_0_l, N.add_0_r,
      <- DecimalPos.Unsigned.of_uint_alt;
    apply (f_equal Some), DecimalN.Unsigned.of_to.
Qed.

Lemma FormatUint_inj n m : strconv_FormatUint n = strconv_FormatUint m → n = m.
Proof.
  intros H. apply (f_equal (parse_digits 0)) in H.
  rewrite !parse_digits_FormatUint in H. by injection H.
Qed.

(** ** Facts about strings and the matchers *)

Lemma strip_prefix_app p s : strip_prefix p (p +:+ s) = Some s.
Proof.
  induction p as [|c p IH]; [done|].
  change (String c p +:+ s) with (String c (p +:+ s)). cbn. by rewrite Ascii.eqb_refl.
Qed.

Lemma span_while_forall p s : string_forallb p (span_while p s) = true.
Proof. induction s as [|c s IH]; cbn; [done|]. destruct (p c) eqn:Hc; cbn; [by rewrite Hc|done]. Qed.

Lemma span_while_app p a c s :
  string_forallb p a = true → p c = false →
  span_while p (a +:+ String c s) = a ∧ skip_while p (a +:+ String c s) = String c s.
Proof.
  intros Ha Hc. induction a as [|x a IH].
  - change (EmptyString +:+ String c s) with (String c s). cbn. by rewrite Hc.
  - change (String x a +:+ String c s) with (String x (a +:+ String c s)).
    cbn in *. apply andb_true_iff in Ha as [Hx Ha]. rewrite Hx.
    destruct (IH Ha) as [-> ->]. done.
Qed.

Lemma string_of_uint_digits d : string_forallb is_digit (NilEmpty.string_of_uint d) = true.
Proof. induction d; cbn; done. Qed.

Lemma FormatUint_digits n :
  string_forallb is_digit (strconv_FormatUint n) = true ∧ strconv_FormatUint n ≠ EmptyString.
Proof.
  unfold strconv_FormatUint, NilZero.string_of_uint.
  destruct (N.to_uint n); (split; [apply string_of_uint_digits || done|done]).
Qed.

Lemma find_first_here at_ s m : at_ s = Some m → find_first at_ s = Some m.
Proof. intros H. destruct s; cbn; by rewrite H. Qed.

Lemma find_first_some at_ s m :
  find_first at_ s = Some m → ∃ s', at_ s' = Some m.
Proof.
  induction s as [|c s IH]; cbn; destruct (at_ _) eqn:H; try done.
  - intros [= <-]. eauto.
  - intros [= <-]. eauto.
Qed.

Lemma digits_at_group prefix s m :
  digits_at prefix s = Some m →
  ∃ full group, m = [full; group] ∧ group ≠ EmptyString ∧ string_forallb is_digit group = true.
Proof.
  unfold digits_at. destruct (strip_prefix _ _) as [rest|]; [|done].
  pose proof (span_while_forall is_digit rest) as Hd.
  destruct (span_while is_digit rest) as [|c g]; [done|].
  destruct (starts_with _ _); [|done]. intros [= <-]. eauto.
Qed.

(** [ParseInt] of a run of digits: the number, cut at the largest [int32]. *)
Lemma parse_digits_total s acc :
  string_forallb is_digit s = true → ∃ n, parse_digits acc s = Some n.
Proof.
  revert acc. induction s as [|c s IH]; intros acc; cbn; [eauto|].
  intros [Hc Hs]%andb_true_iff. rewrite Hc. eauto.
Qed.

Lemma parse_digits_grows s : ∀ acc n, parse_digits acc s = Some n → (acc ≤ n)%N.
Proof.
  induction s as [|c s IH]; intros acc n; cbn.
  - intros [= <-]. lia.
  - destruct (is_digit c); [|done]. intros H. apply IH in H. lia.
Qed.

Lemma ParseUint32_from_digits s : ∀ acc n,
  (acc ≤ uint32_max)%N → string_forallb is_digit s = true → parse_digits acc s = Some n →
  strconv_ParseUint32_from acc s
  = if N.leb n uint32_max then (n, None) else (uint32_max, Some strconv_ErrRange).
Proof.
  induction s as [|c s IH]; intros acc n Hacc; cbn.
  - intros _ [= <-]. by apply N.leb_le in Hacc as ->.
  - intros [Hc Hs]%andb_true_iff. rewrite Hc. intros Hn.
    destruct (N.ltb_spec uint32_max (acc * 10 + (N_of_ascii c - 48))) as [Hover|Hfits].
    + apply parse_digits_grows in Hn.
      destruct (N.leb_spec n uint32_max); [lia|done].
    + by apply IH.
Qed.

Lemma ParseInt32_digits s n :
  s ≠ EmptyString → string_forallb is_digit s = true → parse_digits 0 s = Some n →
  fst (strconv_ParseInt32 s) = Z.min (Z.of_N n) int32_max.
Proof.
  intros Hne Hd Hn. destruct s as [|c s]; [done|].
  unfold strconv_ParseInt32.
  pose proof Hd as Hd'. cbn in Hd'. apply andb_true_iff in Hd' as [Hc _].
  assert (Ascii.eqb c "+" = false ∧ Ascii.eqb c "-" = false) as [-> ->].
  { split; apply Ascii.eqb_neq; intros ->; done. }
  cbn [orb andb negb]. unfold strconv_ParseUint32.
  rewrite (ParseUint32_from_digits (String c s) 0 n) by (done || (unfold uint32_max; cbn; lia)).
  change (N.shiftl 1 31) with 2147483648%N. unfold int32_max.
  destruct (N.leb_spec n uint32_max) as [Hfits|Hover].
  - rewrite bool_decide_eq_false_2 by done.
    destruct (N.leb_spec 2147483648 n); cbn [fst]; lia.
  - rewrite bool_decide_eq_false_2 by done.
    change (N.leb 2147483648 uint32_max) with true. cbn [fst].
    unfold uint32_max in Hover. change (N.shiftl 1 32 - 1)%N with 4294967295%N in Hover. lia.
Qed.

Lemma ParseInt32_digits_range s :
  s ≠ EmptyString → string_forallb is_digit s = true →
  (0 ≤ fst (strconv_ParseInt32 s) ≤ int32_max)%Z.
Proof.
  intros Hne Hd. destruct (parse_digits_total s 0 Hd) as [n Hn].
  rewrite (ParseInt32_digits s n Hne Hd Hn). unfold int32_max. lia.
Qed.

Lemma skip_while_forall p q b :
  string_forallb q b = true → string_forallb q (skip_while p b) = true.
Proof.
  induction b as [|x b IH]; cbn; [done|]. intros [Hx Hb]%andb_true_iff.
  destruct (p x); [auto|]. cbn. by rewrite Hx, Hb.
Qed.

Lemma last_byte_forall q b :
  b ≠ EmptyString → string_forallb q b = true →
  last_byte b ≠ EmptyString ∧ string_forallb q (last_byte b) = true.
Proof.
  induction b as [|x b IH]; [done|]. intros _ [Hx Hb]%andb_true_iff.
  destruct b as [|y b]; [cbn; by rewrite Hx|].
  change (last_byte (String x (String y b))) with (last_byte (String y b)).
  apply IH; done.
Qed.

Lemma errorMsgExp_at_group s m :
  errorMsgExp_at s = Some m →
  ∃ full group, m = [full; group] ∧ group ≠ EmptyString ∧ string_forallb not_lt group = true.
Proof.
  unfold errorMsgExp_at. destruct (strip_prefix _ _) as [rest|]; [|done]. cbn zeta.
  pose proof (span_while_forall not_lt rest) as Hb.
  destruct (span_while not_lt rest) as [|c between]; [done|].
  set (b := String c between) in *. assert (b ≠ EmptyString) as Hne by done. clearbody b.
  destruct (starts_with _ _); [|done]. intros [= <-].
  eexists _, _. split; [reflexivity|].
  pose proof (skip_while_forall is_space not_lt b Hb) as Hskip.
  destruct (skip_while is_space b) as [|t text].
  - by apply last_byte_forall.
  - done.
Qed.

(** ** Facts about [GetEscrow] *)

Lemma GetEscrow_run session url env w resp body :
  Do (client session) (requests w) (request_Get url) = (Some resp, None) →
  Response.StatusCode resp = http_StatusOK →
  io_ReadAll (Response.Body resp) = inr body →
  fst (GetEscrow session url env w)
  = Done (Some (mkEscrowSteamGuardInfo
                  match myEscrowExp_FindStringSubmatch body with
                  | Some [_; group] => fst (strconv_ParseInt32 group)
                  | _ => 0%Z
                  end
                  match themEscrowExp_FindStringSubmatch body with
                  | Some [_; group] => fst (strconv_ParseInt32 group)
                  | _ => 0%Z
                  end
                  match errorMsgExp_FindStringSubmatch body with
                  | Some [_; group] => group
                  | _ => EmptyString
                  end), None).
Proof.
  intros Hdo Hstatus Hread. unfold GetEscrow. run_go. rewrite Hdo. cbn.
  by rewrite Hstatus, Hread.
Qed.

Lemma escrow_days_of_match prefix body :
  let days := match find_first (digits_at prefix) body with
              | Some [_; group] => fst (strconv_ParseInt32 group)
              | _ => 0%Z
              end in
  (0 ≤ days ≤ int32_max)%Z ∧
  (find_first (digits_at prefix) body = None → days = 0%Z) ∧
  (∀ full group, find_first (digits_at prefix) body = Some [full; group] →
     ∃ n, parse_digits 0 group = Some n ∧ days = Z.min (Z.of_N n) int32_max).
Proof.
  cbn zeta. destruct (find_first (digits_at prefix) body) as [m|] eqn:Hm.
  - apply find_first_some in Hm as [s' Hat].
    apply digits_at_group in Hat as (full & group & -> & Hne & Hd).
    destruct (parse_digits_total group 0 Hd) as [n Hn].
    split; [by apply ParseInt32_digits_range|]. split; [done|].
    intros ? ? [= <- <-]. exists n. split; [done|]. by apply ParseInt32_digits.
  - unfold int32_max. repeat split; (done || lia).
Qed.

(** X1. A readable escrow page with status 200 is never refused: the
    call returns an info record and no error whatever the page holds.
    Each day count is 0 when its pattern is absent and otherwise the
    number the digits of the leftmost match denote, cut at the largest
    [int32]; so both lie between 0 and 2147483647.  The error text is
    empty when its pattern is absent and never holds a [<]. *)
Theorem GetEscrow_page_is_always_read session url env w resp body :
  Do (client session) (requests w) (request_Get url) = (Some resp, None) →
  Response.StatusCode resp = http_StatusOK →
  io_ReadAll (Response.Body resp) = inr body →
  ∃ info, fst (GetEscrow session url env w) = Done (Some info, None) ∧
    (0 ≤ MyDays info ≤ int32_max)%Z ∧
    (0 ≤ ThemDays info ≤ int32_max)%Z ∧
    (myEscrowExp_FindStringSubmatch body = None → MyDays info = 0%Z) ∧
    (themEscrowExp_FindStringSubmatch body = None → ThemDays info = 0%Z) ∧
    (∀ full group, myEscrowExp_FindStringSubmatch body = Some [full; group] →
       ∃ n, parse_digits 0 group = Some n ∧ MyDays info = Z.min (Z.of_N n) int32_max) ∧
    (∀ full group, themEscrowExp_FindStringSubmatch body = Some [full; group] →
       ∃ n, parse_digits 0 group = Some n ∧ ThemDays info = Z.min (Z.of_N n) int32_max) ∧
    (errorMsgExp_FindStringSubmatch body = None → ErrorMsg info = EmptyString) ∧
    string_forallb not_lt (ErrorMsg info) = true.
Proof.
  intros Hdo Hstatus Hread. eexists. split; [exact (GetEscrow_run _ _ _ _ _ _ Hdo Hstatus Hread)|].
  cbn [MyDays ThemDays ErrorMsg].
  destruct (escrow_days_of_match "var g_daysMyEscrow = " body) as (Hm1 & Hm2 & Hm3).
  destruct (escrow_days_of_match "var g_daysTheirEscrow = " body) as (Ht1 & Ht2 & Ht3).
  repeat (split; [done|]).
  unfold errorMsgExp_FindStringSubmatch.
  destruct (find_first errorMsgExp_at body) as [m|] eqn:Hm; [|done].
  apply find_first_some in Hm as [s' Hat].
  apply errorMsgExp_at_group in Hat as (full & group & -> & _ & Hg). done.
Qed.

Lemma GetEscrow_page_is_always_read_witness :
  ∃ info, fst (GetEscrow (page_session (escrow_page 99999999999 "<html>")) "u" env0 world0)
          = Done (Some info, None) ∧ MyDays info = int32_max ∧ ThemDays info = 0%Z.
Proof.
  destruct (GetEscrow_page_is_always_read
              (page_session (escrow_page 99999999999 "<html>")) "u" env0 world0
              (page_response (escrow_page 99999999999 "<html>"))
              (escrow_page 99999999999 "<html>") eq_refl eq_refl eq_refl)
    as (info & Hrun & _ & _ & _ & Hthem & Hmy & _).
  exists info. split; [exact Hrun|]. split.
  - destruct (Hmy "var g_daysMyEscrow = 99999999999;" "99999999999" eq_refl)
      as (n & Hn & ->). injection Hn as <-. reflexivity.
  - apply Hthem. reflexivity.
Defined.

(** X2. A page that opens with the my-escrow assignment of the decimal
    rendering of [n] gives [MyDays = n], as long as [n] fits in an
    [int32], and 2147483647 beyond that. *)
Theorem GetEscrow_reads_back_days session url env w resp n rest :
  Do (client session) (requests w) (request_Get url) = (Some resp, None) →
  Response.StatusCode resp = http_StatusOK →
  io_ReadAll (Response.Body resp) = inr (escrow_page n rest) →
  ∃ info, fst (GetEscrow session url env w) = Done (Some info, None) ∧
          MyDays info = Z.min (Z.of_N n) int32_max.
Proof.
  intros Hdo Hstatus Hread.
  eexists. split; [exact (GetEscrow_run _ _ _ _ _ _ Hdo Hstatus Hread)|]. cbn [MyDays].
  destruct (FormatUint_digits n) as [Hd Hne].
  assert (myEscrowExp_FindStringSubmatch (escrow_page n rest)
          = Some ["var g_daysMyEscrow = " +:+ strconv_FormatUint n +:+ ";";
                  strconv_FormatUint n]) as ->.
  { apply find_first_here. unfold myEscrowExp_at, digits_at, escrow_page.
    rewrite strip_prefix_app.
    change (";" +:+ rest) with (String ";" rest).
    destruct (span_while_app is_digit (strconv_FormatUint n) ";" rest Hd eq_refl) as [-> ->].
    destruct (strconv_FormatUint n); [done|]. cbn. by rewrite Ascii.eqb_refl || done. }
  apply ParseInt32_digits; [done..|apply parse_digits_FormatUint].
Qed.

Lemma GetEscrow_reads_back_days_witness :
  ∃ info, fst (GetEscrow (page_session (escrow_page 15 "var x;")) "u" env0 world0)
          = Done (Some info, None) ∧ MyDays info = 15%Z.
Proof.
  exact (GetEscrow_reads_back_days (page_session (escrow_page 15 "var x;")) "u" env0 world0
           (page_response (escrow_page 15 "var x;")) 15 "var x;" eq_refl eq_refl eq_refl).
Defined.

Lemma string_forallb_app p a b :
  string_forallb p (a +:+ b) = string_forallb p a && string_forallb p b.
Proof.
  induction a as [|c a IH]; [done|].
  change (String c a +:+ b) with (String c (a +:+ b)). cbn. by rewrite IH, andb_assoc.
Qed.

Lemma string_forallb_impl (p q : ascii → bool) s :
  (∀ c, p c = true → q c = true) → string_forallb p s = true → string_forallb q s = true.
Proof.
  intros Hpq. induction s as [|c s IH]; cbn; [done|].
  intros [Hc Hs]%andb_true_iff. by rewrite (Hpq c Hc), IH.
Qed.

Lemma is_space_not_lt c : is_space c = true → not_lt c = true.
Proof.
  unfold is_space, not_lt. intros H. apply negb_true_iff, Ascii.eqb_neq. intros ->. done.
Qed.

Lemma errorMsgExp_at_starts s m :
  errorMsgExp_at s = Some m → starts_with error_msg_open s = true.
Proof.
  unfold errorMsgExp_at, starts_with.
  destruct (strip_prefix error_msg_open s); [|done]. intros _.
  apply bool_decide_eq_true. eauto.
Qed.

Lemma find_first_after (at_ : string → option submatch) p pre s m :
  (∀ s' m', at_ s' = Some m' → starts_with p s' = true) →
  find_index p (pre +:+ s) = Some (String.length pre) →
  at_ s = Some m →
  find_first at_ (pre +:+ s) = Some m.
Proof.
  intros Hstarts. induction pre as [|c pre IH]; intros Hidx Hat.
  - by apply find_first_here.
  - change (String c pre +:+ s) with (String c (pre +:+ s)) in *.
    cbn [find_index String.length] in Hidx.
    destruct (starts_with p (String c (pre +:+ s))) eqn:Hhere; [done|].
    cbn [find_first].
    destruct (at_ (String c (pre +:+ s))) as [m'|] eqn:Hm'.
    + apply Hstarts in Hm'. congruence.
    + apply IH; [|done].
      destruct (find_index p (pre +:+ s)); [|done]. by injection Hidx as ->.
Qed.

(** X3. When the first [error_msg] opening tag of an escrow page,
    wherever in the page it stands, is followed by white space, then a
    text that starts with a byte other than white space and holds no
    [<], then [</div>], that text is the error text: the leading white
    space is dropped and everything else up to the closing tag is
    kept, white space at the end included. *)
Theorem GetEscrow_error_text session url env w resp pre ws t text rest :
  Do (client session) (requests w) (request_Get url) = (Some resp, None) →
  Response.StatusCode resp = http_StatusOK →
  io_ReadAll (Response.Body resp)
  = inr (pre +:+ error_msg_open +:+ (ws +:+ String t text) +:+ "</div>" +:+ rest) →
  find_index error_msg_open
    (pre +:+ error_msg_open +:+ (ws +:+ String t text) +:+ "</div>" +:+ rest)
  = Some (String.length pre) →
  string_forallb is_space ws = true →
  is_space t = false →
  string_forallb not_lt (String t text) = true →
  ∃ info, fst (GetEscrow session url env w) = Done (Some info, None) ∧
          ErrorMsg info = String t text.
Proof.
  intros Hdo Hstatus Hread Hfirst Hws Ht Htext.
  eexists. split; [exact (GetEscrow_run _ _ _ _ _ _ Hdo Hstatus Hread)|].
  cbn [ErrorMsg]. unfold errorMsgExp_FindStringSubmatch.
  assert (errorMsgExp_at (error_msg_open +:+ (ws +:+ String t text) +:+ "</div>" +:+ rest)
          = Some [error_msg_open +:+ (ws +:+ String t text) +:+ "</div>"; String t text])
    as Hat.
  { unfold errorMsgExp_at. rewrite strip_prefix_app. cbn zeta.
    change ("</div>" +:+ rest) with (String "<" ("/div>" +:+ rest)).
    assert (string_forallb not_lt (ws +:+ String t text) = true) as Hbetween.
    { rewrite string_forallb_app, Htext, andb_true_r.
      by apply (string_forallb_impl is_space), Hws; apply is_space_not_lt. }
    destruct (span_while_app not_lt (ws +:+ String t text) "<" ("/div>" +:+ rest)
                Hbetween eq_refl) as [-> ->].
    destruct (span_while_app is_space ws t text Hws Ht) as [_ Hskip].
    rewrite Hskip.
    destruct (ws +:+ String t text) eqn:Happ; [by destruct ws|].
    reflexivity. }
  by rewrite (find_first_after errorMsgExp_at error_msg_open pre _ _
                errorMsgExp_at_starts Hfirst Hat).
Qed.

Lemma GetEscrow_error_text_witness :
  ∃ info,
    fst (GetEscrow (page_session error_page) "u" env0 world0) = Done (Some info, None) ∧
    ErrorMsg info = "Trade ban  ".
Proof.
  exact (GetEscrow_error_text (page_session error_page) "u" env0 world0
           (page_response error_page)
           "<!DOCTYPE html><div>" "  " "T" "rade ban  " "<p>"
           eq_refl eq_refl eq_refl eq_refl eq_refl eq_refl eq_refl).
Defined.

Lemma partner_token_encoding (partner token : string) :
  Values_Encode (<["partner" := [partner]]> (<["token" := [token]]> ∅))
  = "partner=" +:+ url_QueryEscape partner +:+ "&token=" +:+ url_QueryEscape token.
Proof. encode_values. reflexivity. Qed.

Lemma GetEscrow_request session url env w :
  requests (snd (GetEscrow session url env w)) = (requests w ++ [request_Get url])%list.
Proof.
  unfold GetEscrow. run_go.
  destruct (Do _ _ _) as [[resp|] [e|]]; cbn; try done.
  destruct (negb _); [done|]. destruct (io_ReadAll _); done.
Qed.

(** X4. [GetEscrowGuardInfoForTrade] fetches
    [https://steamcommunity.com/tradeoffer/<id>], a different page for
    every offer; [GetEscrowGuardInfo] fetches the new-offer page with
    the partner's account number and the escaped token as its query.
    Each sends that one request and answers as [GetEscrow] does. *)
Theorem escrow_entry_points session sid token offerID env w :
  let trade_url id := "https://steamcommunity.com/tradeoffer/" +:+ strconv_FormatUint id in
  let new_url := "https://steamcommunity.com/tradeoffer/new/?partner="
                   +:+ strconv_FormatUint (GetAccountID sid)
                   +:+ "&token=" +:+ url_QueryEscape token in
  requests (snd (GetEscrowGuardInfoForTrade session offerID env w))
  = (requests w ++ [request_Get (trade_url offerID)])%list ∧
  GetEscrowGuardInfoForTrade session offerID = GetEscrow session (trade_url offerID) ∧
  (∀ other, trade_url other = trade_url offerID → other = offerID) ∧
  requests (snd (GetEscrowGuardInfo session sid token env w))
  = (requests w ++ [request_Get new_url])%list ∧
  GetEscrowGuardInfo session sid token = GetEscrow session new_url.
Proof.
  cbn zeta.
  pose proof (partner_token_encoding (strconv_FormatUint (GetAccountID sid)) token) as Henc.
  rewrite QueryEscape_FormatUint in Henc.
  assert ("https://steamcommunity.com/tradeoffer/new/?"
            +:+ "partner=" +:+ strconv_FormatUint (GetAccountID sid)
            +:+ "&token=" +:+ url_QueryEscape token
          = "https://steamcommunity.com/tradeoffer/new/?partner="
              +:+ strconv_FormatUint (GetAccountID sid)
              +:+ "&token=" +:+ url_QueryEscape token) as Hurl by reflexivity.
  split; [apply GetEscrow_request|]. split; [reflexivity|]. split; [|split].
  - intros other H. by apply append_inj_l, FormatUint_inj in H.
  - unfold GetEscrowGuardInfo. rewrite GetEscrow_request, Henc, Hurl. reflexivity.
  - unfold GetEscrowGuardInfo. rewrite Henc, Hurl. reflexivity.
Qed.

(** X5. The three page scrapers look at nothing of a response whose
    status is not 200: they fail with the status in the message. *)
Theorem scrapers_refuse_other_status {Item : Type} (unmarshal : string → error + Item)
    session url receiptID env w :
  (∀ resp, Do (client session) (requests w) (request_Get url) = (Some resp, None) →
     Response.StatusCode resp ≠ http_StatusOK →
     fst (GetEscrow session url env w)
     = Done (None, Some (fmt_Errorf ("http error: "
                                       +:+ strconv_FormatInt (Response.StatusCode resp))))) ∧
  (∀ resp, Do (client session) (requests w)
             (request_Get "https://steamcommunity.com/my/tradeoffers/privacy")
           = (Some resp, None) →
     Response.StatusCode resp ≠ http_StatusOK →
     fst (GetMyTradeToken session env w)
     = Done (EmptyString,
             Some (fmt_Errorf ("http error: "
                                 +:+ strconv_FormatInt (Response.StatusCode resp))))) ∧
  (∀ resp, Do (client session) (requests w)
             (request_Get ("https://steamcommunity.com/trade/"
                             +:+ strconv_FormatUint receiptID +:+ "/receipt"))
           = (Some resp, None) →
     Response.StatusCode resp ≠ http_StatusOK →
     fst (GetTradeReceivedItems Item unmarshal session receiptID env w)
     = Done ([], Some (fmt_Errorf ("http error: "
                                     +:+ strconv_FormatInt (Response.StatusCode resp))))).
Proof.
  repeat split; intros resp Hdo Hstatus;
    [unfold GetEscrow|unfold GetMyTradeToken|unfold GetTradeReceivedItems];
    run_go; rewrite Hdo; cbn;
    apply Z.eqb_neq in Hstatus; by rewrite Hstatus.
Qed.

Lemma scrapers_refuse_other_status_witness :
  fst (GetEscrow (session_of (respond 503 (body_text (escrow_page 3 EmptyString)))) "u"
         env0 world0)
  = Done (None, Some (fmt_Errorf "http error: 503"))
  ∧ fst (GetMyTradeToken (session_of (respond 302 (body_text page_two_tokens))) env0 world0)
    = Done (EmptyString, Some (fmt_Errorf "http error: 302"))
  ∧ fst (GetTradeReceivedItems string toy_Unmarshal
           (session_of (respond 404 (body_text good_receipt_page))) 5 env0 world0)
    = Done ([], Some (fmt_Errorf "http error: 404")).
Proof.
  split; [|split].
  - exact (proj1 (scrapers_refuse_other_status toy_Unmarshal
             (session_of (respond 503 (body_text (escrow_page 3 EmptyString)))) "u" 5
             env0 world0) _ eq_refl ltac:(discriminate)).
  - exact (proj1 (proj2 (scrapers_refuse_other_status toy_Unmarshal
             (session_of (respond 302 (body_text page_two_tokens))) "u" 5
             env0 world0)) _ eq_refl ltac:(discriminate)).
  - exact (proj2 (proj2 (scrapers_refuse_other_status toy_Unmarshal
             (session_of (respond 404 (body_text good_receipt_page))) "u" 5
             env0 world0)) _ eq_refl ltac:(discriminate)).
Defined.

(** ** Facts about [DeclineTradeOffer], [CancelTradeOffer] and [AcceptTradeOffer] *)

(** X6. Once a response has come back, [DeclineTradeOffer] and
    [CancelTradeOffer] succeed exactly when its [x-eresult] header is
    [1], whatever its status and body; any other value is handed up
    inside the error message. *)
Theorem Decline_Cancel_read_the_result_header APIBaseUrl session id env w :
  let form : url_Values :=
    <["key" := [apiKey session]]> (<["tradeofferid" := [strconv_FormatUint id]]> ∅) in
  (∀ resp,
     Do (client session) (requests w) (request_PostForm (apiDeclineTradeOffer APIBaseUrl) form)
     = (Some resp, None) →
     (fst (DeclineTradeOffer APIBaseUrl session id env w) = Done None
      ↔ Response.Header_Get resp "x-eresult" = "1") ∧
     (Response.Header_Get resp "x-eresult" ≠ "1" →
      fst (DeclineTradeOffer APIBaseUrl session id env w)
      = Done (Some (fmt_Errorf ("cannot decline trade: "
                                  +:+ Response.Header_Get resp "x-eresult"))))) ∧
  (∀ resp,
     Do (client session) (requests w) (request_PostForm (apiCancelTradeOffer APIBaseUrl) form)
     = (Some resp, None) →
     (fst (CancelTradeOffer APIBaseUrl session id env w) = Done None
      ↔ Response.Header_Get resp "x-eresult" = "1") ∧
     (Response.Header_Get resp "x-eresult" ≠ "1" →
      fst (CancelTradeOffer APIBaseUrl session id env w)
      = Done (Some (fmt_Errorf ("cannot cancel trade: "
                                  +:+ Response.Header_Get resp "x-eresult"))))).
Proof.
  cbn zeta. split; intros resp Hdo;
    [unfold DeclineTradeOffer|unfold CancelTradeOffer]; run_go; rewrite Hdo; cbn;
    destruct (String.eqb_spec (Response.Header_Get resp "x-eresult") "1") as [Heq|Hne];
    cbn; (split; [split; [done|intros; done]|done]).
Qed.

Lemma Decline_Cancel_read_the_result_header_witness :
  fst (DeclineTradeOffer sample_APIBaseUrl (session_of (respond_eresult "1")) 77 env0 world0)
  = Done None
  ∧ fst (CancelTradeOffer sample_APIBaseUrl (session_of (respond_eresult "11")) 77 env0 world0)
    = Done (Some (fmt_Errorf "cannot cancel trade: 11")).
Proof.
  split.
  - exact (proj2 (proj1 (proj1 (Decline_Cancel_read_the_result_header sample_APIBaseUrl
                                  (session_of (respond_eresult "1")) 77 env0 world0)
                           _ eq_refl)) eq_refl).
  - exact (proj2 (proj2 (Decline_Cancel_read_the_result_header sample_APIBaseUrl
                           (session_of (respond_eresult "11")) 77 env0 world0)
                    _ eq_refl) ltac:(discriminate)).
Defined.

Lemma AcceptTradeOffer_run session id env w :
  AcceptTradeOffer session id env w =
  match http_NewRequest_error env http_MethodPost (accept_url id) with
  | Some e => (Done (Some e), w)
  | None =>
  let req := AcceptTradeOffer_request session id in
  let sent := mkWorld (requests w ++ [req])%list (ticks w) (closed w) (printed w) in
  let shut := mkWorld (requests w ++ [req])%list (ticks w) (S (closed w)) (printed w) in
  match Do (client session) (requests w) req with
  | (None, Some e) => (Done (Some e), sent)
  | (Some _, Some e) => (Done (Some e), shut)
  | (None, None) => (Done (Some (errors_New "invalid response")), sent)
  | (Some resp, None) =>
      if negb (Z.eqb (Response.StatusCode resp) http_StatusOK)
      then (Done (Some (fmt_Errorf ("http error: "
                                      +:+ strconv_FormatInt (Response.StatusCode resp)))), shut)
      else match json_Decode_AcceptResponse (Response.Body resp) with
           | inl e => (Done (Some e), shut)
           | inr response =>
               if String.eqb (AcceptResponse.ErrorMessage response) EmptyString
               then (Done None, shut)
               else (Done (Some (errors_New (AcceptResponse.ErrorMessage response))), shut)
           end
  end end.
Proof.
  unfold AcceptTradeOffer. run_go. fold (accept_url id).
  destruct (http_NewRequest_error env _ _) as [e|]; [done|].
  fold (AcceptTradeOffer_request session id). cbn zeta.
  destruct (Do _ _ _) as [[resp|] [e|]]; cbn; try done.
  destruct (negb _); [done|].
  destruct (json_Decode_AcceptResponse _) as [e|response]; cbn; [done|].
  destruct (AcceptResponse.ErrorMessage response); done.
Qed.

(** X7. With the request built, [AcceptTradeOffer] succeeds exactly
    when a response comes back without a transport error, with status
    200 and a decodable body whose [strError] is empty; the
    [x-eresult] header plays no part.  A status other than 200 fails
    with the status in the message before the body is decoded, and a
    non-empty [strError] becomes the error. *)
Theorem AcceptTradeOffer_succeeds_iff session id env w :
  http_NewRequest_error env http_MethodPost (accept_url id) = None →
  (fst (AcceptTradeOffer session id env w) = Done None
   ↔ ∃ resp response,
       Do (client session) (requests w) (AcceptTradeOffer_request session id)
       = (Some resp, None) ∧
       Response.StatusCode resp = http_StatusOK ∧
       json_Decode_AcceptResponse (Response.Body resp) = inr response ∧
       AcceptResponse.ErrorMessage response = EmptyString) ∧
  (∀ resp, Do (client session) (requests w) (AcceptTradeOffer_request session id)
           = (Some resp, None) →
     Response.StatusCode resp ≠ http_StatusOK →
     fst (AcceptTradeOffer session id env w)
     = Done (Some (fmt_Errorf ("http error: "
                                 +:+ strconv_FormatInt (Response.StatusCode resp))))) ∧
  (∀ resp response,
     Do (client session) (requests w) (AcceptTradeOffer_request session id)
     = (Some resp, None) →
     Response.StatusCode resp = http_StatusOK →
     json_Decode_AcceptResponse (Response.Body resp) = inr response →
     AcceptResponse.ErrorMessage response ≠ EmptyString →
     fst (AcceptTradeOffer session id env w)
     = Done (Some (errors_New (AcceptResponse.ErrorMessage response)))).
Proof.
  intros Hbuilt. rewrite AcceptTradeOffer_run, Hbuilt. cbn zeta.
  split; [|split].
  - split.
    + destruct (Do _ _ _) as [[resp|] [e|]]; try done.
      destruct (Z.eqb_spec (Response.StatusCode resp) http_StatusOK) as [Hs|Hs];
        cbn [negb]; [|done].
      destruct (json_Decode_AcceptResponse _) as [e|response] eqn:Hdec; [done|].
      destruct (String.eqb_spec (AcceptResponse.ErrorMessage response) EmptyString);
        [|done].
      intros _. eauto 8.
    + intros (resp & response & -> & Hs & Hdec & Hmsg).
      by rewrite Hs, Hdec, Hmsg.
  - intros resp -> Hs. apply Z.eqb_neq in Hs. by rewrite Hs.
  - intros resp response -> Hs Hdec Hmsg. rewrite Hs, Hdec. cbn.
    apply String.eqb_neq in Hmsg. by rewrite Hmsg.
Qed.

Lemma AcceptTradeOffer_succeeds_iff_witness :
  fst (AcceptTradeOffer accepting_session 77 env0 world0) = Done None
  ∧ fst (AcceptTradeOffer
           (session_of (respond 500 (body_accept (AcceptResponse.mk EmptyString)))) 77
           env0 world0) = Done (Some (fmt_Errorf "http error: 500")).
Proof.
  split.
  - apply (proj1 (AcceptTradeOffer_succeeds_iff accepting_session 77 env0 world0 eq_refl)).
    eexists _, _. repeat split; reflexivity.
  - exact (proj1 (proj2 (AcceptTradeOffer_succeeds_iff
             (session_of (respond 500 (body_accept (AcceptResponse.mk EmptyString)))) 77
             env0 world0 eq_refl)) _ eq_refl ltac:(discriminate)).
Defined.

Lemma accept_form_encoding (sid tid : string) :
  Values_Encode (<["sessionid" := [sid]]> (<["serverid" := ["1"]]>
                   (<["tradeofferid" := [tid]]> ∅)))
  = "serverid=1&sessionid=" +:+ url_QueryEscape sid
      +:+ "&tradeofferid=" +:+ url_QueryEscape tid.
Proof. encode_values. reflexivity. Qed.

Lemma append_assoc (a b c : string) : (a +:+ b) +:+ c = a +:+ b +:+ c.
Proof.
  induction a as [|x a IH]; [done|].
  change ((String x a +:+ b) +:+ c) with (String x ((a +:+ b) +:+ c)).
  by rewrite IH.
Qed.

Lemma digits_then_slash_inj a b s t :
  string_forallb is_digit a = true → string_forallb is_digit b = true →
  a +:+ String "/" s = b +:+ String "/" t → a = b.
Proof.
  intros Ha Hb H.
  destruct (span_while_app is_digit a "/" s Ha eq_refl) as [Hsa _].
  destruct (span_while_app is_digit b "/" t Hb eq_refl) as [Hsb _].
  by rewrite <- Hsa, <- Hsb, H.
Qed.

(** X8. [AcceptTradeOffer] sends nothing when the request cannot be
    built, and otherwise one POST to
    [https://steamcommunity.com/tradeoffer/<id>/accept] with the offer
    page as [Referer] and the form [serverid=1], the session id and
    the offer id as body; the URL is a different one for every id. *)
Theorem AcceptTradeOffer_request_sent session id env w :
  let req := AcceptTradeOffer_request session id in
  requests (snd (AcceptTradeOffer session id env w))
  = match http_NewRequest_error env http_MethodPost (accept_url id) with
    | Some _ => requests w
    | None => (requests w ++ [req])%list
    end ∧
  Request.Method req = "POST" ∧
  Request.URL req
  = "https://steamcommunity.com/tradeoffer/" +:+ strconv_FormatUint id +:+ "/accept" ∧
  Request.Header req !! "Referer"
  = Some ["https://steamcommunity.com/tradeoffer/" +:+ strconv_FormatUint id +:+ "/"] ∧
  Request.Body req
  = "serverid=1&sessionid=" +:+ url_QueryEscape (sessionID session)
      +:+ "&tradeofferid=" +:+ strconv_FormatUint id ∧
  (∀ other, accept_url other = accept_url id → other = id).
Proof.
  cbn zeta. split; [|split; [done|split; [|split; [|split]]]].
  - rewrite AcceptTradeOffer_run.
    destruct (http_NewRequest_error env _ _); [done|]. cbn zeta.
    destruct (Do _ _ _) as [[resp|] [e|]]; try done.
    destruct (negb _); [done|]. destruct (json_Decode_AcceptResponse _); [done|].
    destruct (String.eqb _ _); done.
  - cbn. unfold accept_url. by rewrite !append_assoc.
  - cbn. unfold Values_Set, Values_Add.
    rewrite lookup_insert_ne by done. rewrite lookup_insert_eq. by rewrite lookup_empty.
  - cbn. by rewrite accept_form_encoding, QueryEscape_FormatUint.
  - intros other H. unfold accept_url in H. rewrite !append_assoc in H.
    apply append_inj_l in H.
    change ("/" +:+ "accept") with (String "/" "accept") in H.
    apply FormatUint_inj. eapply digits_then_slash_inj; [..|exact H];
      apply FormatUint_digits.
Qed.

(** ** What every call does to the connection *)

Ltac round_trip :=
  run_go; cbn [requests ticks closed printed];
  match goal with
  | |- context [Do ?c ?h ?r] =>
      right; exists r; destruct (Do c h r) as [[?|] [?|]]; cbn
  end;
  repeat match goal with
         | |- context [if ?b then _ else _] => destruct b; cbn
         | |- context [match ?x with inl _ => _ | inr _ => _ end] => destruct x; cbn
         | |- context [match ?x with Some _ => _ | None => _ end] => destruct x; cbn
         | |- context [match ?x with [] => _ | _ :: _ => _ end] => destruct x; cbn
         end;
  split; reflexivity.

Section RoundTrips.
Context (APIBaseUrl : string) {Item : Type} (unmarshal : string → error + Item).
Context (decode_summary : ReadCloser → error + SummaryEnvelope.t).
Context (decode_version : ReadCloser → error + UpToDateCheck.Response).

(** X9. No call makes more than one request, and every call closes the
    body of the response it got once, however it ends (with a result,
    an error or a panic), and closes nothing when the response is nil. *)
Theorem calls_make_one_round_trip session env w :
  let c := client session in
  (∀ id, one_round_trip c w (snd (GetTradeOffer APIBaseUrl session id env w))) ∧
  (∀ filter T, one_round_trip c w (snd (GetTradeOffers APIBaseUrl session filter T env w))) ∧
  (∀ t, one_round_trip c w
          (snd (GetTradeOffersSummary APIBaseUrl decode_summary session t env w))) ∧
  one_round_trip c w (snd (GetMyTradeToken session env w)) ∧
  (∀ url, one_round_trip c w (snd (GetEscrow session url env w))) ∧
  (∀ offer sid token,
     one_round_trip c w (snd (SendTradeOffer session offer sid token env w))) ∧
  (∀ id, one_round_trip c w
           (snd (GetTradeReceivedItems Item unmarshal session id env w))) ∧
  (∀ id, one_round_trip c w (snd (DeclineTradeOffer APIBaseUrl session id env w))) ∧
  (∀ id, one_round_trip c w (snd (CancelTradeOffer APIBaseUrl session id env w))) ∧
  (∀ id, one_round_trip c w (snd (AcceptTradeOffer session id env w))) ∧
  (∀ app, one_round_trip c w
            (snd (GetRequiredSteamAppVersion APIBaseUrl decode_version session app env w))).
Proof.
  cbn zeta. unfold one_round_trip. repeat split.
  - intros id. unfold GetTradeOffer. round_trip.
  - intros filter T. unfold GetTradeOffers. round_trip.
  - intros t. unfold GetTradeOffersSummary. round_trip.
  - unfold GetMyTradeToken. round_trip.
  - intros url. unfold GetEscrow. round_trip.
  - intros offer sid token. rewrite SendTradeOffer_run.
    destruct (json_Marshal_result env _); [by left|].
    destruct (http_NewRequest_error env _ _); [by left|]. round_trip.
  - intros id. unfold GetTradeReceivedItems. round_trip.
  - intros id. unfold DeclineTradeOffer. round_trip.
  - intros id. unfold CancelTradeOffer. round_trip.
  - intros id. rewrite AcceptTradeOffer_run.
    destruct (http_NewRequest_error env _ _); [by left|]. round_trip.
  - intros app. unfold GetRequiredSteamAppVersion. round_trip.
Qed.

End RoundTrips.

(** ** Facts about the token and receipt scrapers *)

Lemma offerInfoExp_at_token s m :
  offerInfoExp_at s = Some m →
  ∃ full token, m = [full; token] ∧ token ≠ EmptyString ∧
                string_forallb offerInfo_class token = true.
Proof.
  unfold offerInfoExp_at. destruct (strip_prefix _ _) as [rest|]; [|done].
  pose proof (span_while_forall offerInfo_class rest) as Hc.
  destruct (span_while offerInfo_class rest); [done|]. intros [= <-]. eauto.
Qed.

(** X10. Whatever the client answers, [GetMyTradeToken] returns either
    an error with an empty string, or no error with a token that is
    not empty and holds only letters, digits, hyphens and underscores;
    it never indexes outside the match. *)
Theorem GetMyTradeToken_token_shape session env w :
  ∃ token err, fst (GetMyTradeToken session env w) = Done (token, err) ∧
    match err with
    | Some _ => token = EmptyString
    | None => token ≠ EmptyString ∧ string_forallb offerInfo_class token = true
    end.
Proof.
  unfold GetMyTradeToken. run_go.
  destruct (Do _ _ _) as [[resp|] [e|]]; cbn;
    try (eexists _, _; split; [reflexivity|]; done).
  destruct (negb (Z.eqb _ _)); cbn; [eexists _, _; split; [reflexivity|]; done|].
  destruct (io_ReadAll _) as [e|body]; cbn; [eexists _, _; split; [reflexivity|]; done|].
  unfold offerInfoExp_FindStringSubmatch.
  destruct (find_first offerInfoExp_at body) as [m|] eqn:Hm; cbn;
    [|eexists _, _; split; [reflexivity|]; done].
  apply find_first_some in Hm as [s' Hat].
  apply offerInfoExp_at_token in Hat as (full & token & -> & Hne & Hc). cbn.
  eexists _, _. split; [reflexivity|]. done.
Qed.

Lemma lazy_run_spec s : ∀ n k,
  lazy_run n s = Some k →
  (n ≤ k)%nat ∧ (1 ≤ k)%nat ∧
  string_forallb not_line_feed (take_string (k - n) s) = true ∧
  String.length (take_string (k - n) s) = (k - n)%nat.
Proof.
  induction s as [|c s IH]; intros n k; cbn [lazy_run].
  - destruct (negb (Nat.eqb n 0) && starts_with "};" EmptyString)%bool eqn:Hstop; [|done].
    intros [= ->]. apply andb_true_iff in Hstop as [Hn _].
    apply negb_true_iff, Nat.eqb_neq in Hn. rewrite Nat.sub_diag. cbn. repeat split; lia || done.
  - destruct (negb (Nat.eqb n 0) && starts_with "};" (String c s))%bool eqn:Hstop.
    + intros [= ->]. apply andb_true_iff in Hstop as [Hn _].
      apply negb_true_iff, Nat.eqb_neq in Hn. rewrite Nat.sub_diag. cbn.
      repeat split; lia || done.
    + destruct (Ascii.eqb c "010") eqn:Hc; [done|]. intros Hk.
      destruct (IH _ _ Hk) as (Hle & _ & Hall & Hlen).
      replace (k - n)%nat with (S (k - S n)) by lia. cbn.
      unfold not_line_feed at 1, is_line_feed. rewrite Hc. cbn.
      repeat split; lia || done.
Qed.

Lemma last_byte_app_brace a : last_byte (a +:+ "}") = "}".
Proof.
  induction a as [|c a IH]; [done|].
  change (String c a +:+ "}") with (String c (a +:+ "}")).
  destruct a as [|d a]; [done|].
  change (last_byte (String c (String d a +:+ "}"))) with (last_byte (String d a +:+ "}")).
  exact IH.
Qed.

Lemma length_append a b : String.length (a +:+ b) = (String.length a + String.length b)%nat.
Proof.
  induction a as [|c a IH]; [done|].
  change (String c a +:+ b) with (String c (a +:+ b)). cbn. by rewrite IH.
Qed.

Lemma receiptExp_at_fragment s m :
  receiptExp_at s = Some m →
  ∃ c fragment,
    m = ["oItem =" +:+ String c fragment +:+ ";"; fragment] ∧
    is_space c = true ∧
    last_byte fragment = "}" ∧
    string_forallb not_line_feed fragment = true ∧
    (2 ≤ String.length fragment)%nat.
Proof.
  unfold receiptExp_at. destruct (strip_prefix _ _) as [[|c rest]|]; try done.
  destruct (is_space c) eqn:Hc; [|done].
  destruct (lazy_run 0 rest) as [k|] eqn:Hk; [|done]. intros [= <-].
  apply lazy_run_spec in Hk as (_ & Hpos & Hall & Hlen). rewrite Nat.sub_0_r in *.
  exists c, (take_string k rest +:+ "}"). split; [|split; [done|split; [|split]]].
  - change (String c (take_string k rest +:+ "}") +:+ ";")
      with (String c ((take_string k rest +:+ "}") +:+ ";")). reflexivity.
  - apply last_byte_app_brace.
  - by rewrite string_forallb_app, Hall.
  - rewrite length_append, Hlen. cbn. lia.
Qed.

(** X11. Every match of the receipt pattern is [oItem =], one
    white-space byte, the fragment and a semicolon; the fragment, which
    is what goes to the decoder, ends in a closing brace, holds no line
    feed and is at least two bytes long. *)
Theorem receipt_fragments_shape body :
  Forall (λ m, ∃ c fragment,
            m = ["oItem =" +:+ String c fragment +:+ ";"; fragment] ∧
            is_space c = true ∧
            last_byte fragment = "}" ∧
            string_forallb not_line_feed fragment = true ∧
            (2 ≤ String.length fragment)%nat)
         (default [] (receiptExp_FindAllSubmatch body)).
Proof.
  unfold receiptExp_FindAllSubmatch.
  pose proof (find_all_Forall _ _ receiptExp_at_fragment body 0) as H.
  destruct (find_all receiptExp_at 0 body); [constructor|exact H].
Qed.

Section NoPanic.
Context (APIBaseUrl : string) {Item : Type} (unmarshal : string → error + Item).
Context (decode_summary : ReadCloser → error + SummaryEnvelope.t).

(** X12. [GetTradeReceivedItems] never panics: whatever the client
    answers and whatever the page holds, indexing the matches stays in
    range, and the call returns either an error and no items or no
    error and as many items as the pattern has matches. *)
Theorem GetTradeReceivedItems_returns session receiptID env w :
  ∃ items err,
    fst (GetTradeReceivedItems Item unmarshal session receiptID env w) = Done (items, err) ∧
    match err with
    | Some _ => items = []
    | None => ∃ resp body,
        Do (client session) (requests w)
           (request_Get ("https://steamcommunity.com/trade/"
                           +:+ strconv_FormatUint receiptID +:+ "/receipt"))
        = (Some resp, None) ∧
        io_ReadAll (Response.Body resp) = inr body ∧
        length items = length (find_all receiptExp_at 0 body) ∧
        Forall is_Some items
    end.
Proof.
  assert (∀ e : error, ∃ items err,
            Done (A := list (option Item) * option error) ([], Some e) = Done (items, err) ∧
            match err with
            | Some _ => items = []
            | None => ∃ resp body,
                Do (client session) (requests w)
                   (request_Get ("https://steamcommunity.com/trade/"
                                   +:+ strconv_FormatUint receiptID +:+ "/receipt"))
                = (Some resp, None) ∧
                io_ReadAll (Response.Body resp) = inr body ∧
                length items = length (find_all receiptExp_at 0 body) ∧
                Forall is_Some items
            end) as Hfail by (intros e; by eexists _, (Some e)).
  destruct (Do (client session) (requests w)
              (request_Get ("https://steamcommunity.com/trade/"
                              +:+ strconv_FormatUint receiptID +:+ "/receipt")))
    as [[resp|] [e|]] eqn:Hdo;
    try (unfold GetTradeReceivedItems; run_go; rewrite Hdo; cbn; by apply Hfail).
  destruct (Z.eqb_spec (Response.StatusCode resp) http_StatusOK) as [Hs|Hs];
    [|unfold GetTradeReceivedItems; run_go; rewrite Hdo; cbn;
      apply Z.eqb_neq in Hs; rewrite Hs; cbn; by apply Hfail].
  destruct (io_ReadAll (Response.Body resp)) as [e|body] eqn:Hread;
    [unfold GetTradeReceivedItems; run_go; rewrite Hdo; cbn; rewrite Hs, Hread; cbn;
     by apply Hfail|].
  rewrite (GetTradeReceivedItems_run unmarshal session receiptID env w resp body Hdo Hs Hread).
  destruct (find_all receiptExp_at 0 body) as [|m ms] eqn:Hm; [by apply Hfail|].
  destruct (decode_all unmarshal (fragment_of <$> m :: ms)) as [e|items] eqn:Hdec;
    [by apply Hfail|].
  eexists _, None. split; [reflexivity|]. exists resp, body.
  split; [done|]. split; [done|]. split.
  - rewrite length_fmap, Hm.
    clear -Hdec. revert items Hdec. generalize (m :: ms). intros l.
    induction l as [|x l IH]; intros items; cbn.
    + by intros [= <-].
    + destruct (unmarshal _); [done|]. destruct (decode_all unmarshal _); [done|].
      intros [= <-]. cbn. f_equal. by apply IH.
  - apply Forall_fmap, Forall_true. by eauto.
Qed.

End NoPanic.

(** ** Facts about the filter mask *)

(** X13. Testing a mask for the union of two flag sets is testing it for
    both; testing for [TradeFilterNone] always succeeds. *)
Theorem testBit_union bits a b :
  testBit bits (N.lor a b) = testBit bits a && testBit bits b ∧
  testBit bits TradeFilterNone = true.
Proof.
  split; [|unfold testBit, TradeFilterNone; by rewrite N.land_0_r].
  unfold testBit. apply eq_true_iff_eq.
  rewrite andb_true_iff, !N.eqb_eq. split.
  - intros H. split; apply N.bits_inj; intros i;
      apply (f_equal (λ x, N.testbit x i)) in H;
      rewrite N.land_spec, N.lor_spec in H; rewrite N.land_spec;
      destruct (N.testbit bits i), (N.testbit a i), (N.testbit b i); done.
  - intros [Ha Hb]. apply N.bits_inj. intros i.
    apply (f_equal (λ x, N.testbit x i)) in Ha, Hb.
    rewrite N.land_spec in Ha, Hb. rewrite N.land_spec, N.lor_spec.
    destruct (N.testbit bits i), (N.testbit a i), (N.testbit b i); done.
Qed.

(** X14. Only the five flags count: whatever else is set in the mask
    (bit 2, bits 6 to 31), [GetTradeOffers] builds the parameters of
    the mask cut down to the five flags. *)
Theorem GetTradeOffers_ignores_other_bits session filter T :
  GetTradeOffers_params session filter T
  = GetTradeOffers_params session (N.land filter TradeFilter_known) T.
Proof.
  unfold GetTradeOffers_params.
  assert (∀ k, N.testbit TradeFilter_known k = true →
               testBit (N.land filter TradeFilter_known) (N.shiftl 1 k)
               = testBit filter (N.shiftl 1 k)) as Hbit.
  { intros k Hk. rewrite !testBit_single, N.land_spec, Hk. apply andb_true_r. }
  unfold TradeFilterSentOffers, TradeFilterRecvOffers, TradeFilterActiveOnly,
    TradeFilterItemDescriptions, TradeFilterHistoricalOnly.
  rewrite !Hbit by reflexivity. reflexivity.
Qed.

(** ** Facts about [GetTradeOffersSummary] and [GetRequiredSteamAppVersion] *)

Lemma key_encoding (key : string) :
  Values_Encode (<["key" := [key]]> ∅) = "key=" +:+ url_QueryEscape key.
Proof. encode_values. reflexivity. Qed.

Lemma key_visit_encoding (key visit : string) :
  Values_Encode (Values_Add "time_last_visit" visit (<["key" := [key]]> ∅))
  = "key=" +:+ url_QueryEscape key +:+ "&time_last_visit=" +:+ url_QueryEscape visit.
Proof. encode_values. reflexivity. Qed.

Lemma appid_encoding (app : string) :
  Values_Encode (<["appid" := [app]]> (<["version" := ["0"]]> ∅))
  = "appid=" +:+ url_QueryEscape app +:+ "&version=0".
Proof. encode_values. reflexivity. Qed.

Section QueriesFacts.
Context (APIBaseUrl : string).
Context (decode_summary : ReadCloser → error + SummaryEnvelope.t).
Context (decode_version : ReadCloser → error + UpToDateCheck.Response).

(** X15. [GetTradeOffersSummary] sends one GET whose query is the key
    alone when [lastVisitTime] is 0 and the key followed by
    [time_last_visit=<lastVisitTime>] otherwise.  It hands back the
    [response] object of a decodable body as it is, nil when the body
    has none, without an error. *)
Theorem GetTradeOffersSummary_query session lastVisitTime env w :
  let query :=
    if N.eqb lastVisitTime 0
    then "key=" +:+ url_QueryEscape (apiKey session)
    else "key=" +:+ url_QueryEscape (apiKey session)
           +:+ "&time_last_visit=" +:+ strconv_FormatUint lastVisitTime in
  let req := request_Get (apiGetTradeOffersSummary APIBaseUrl +:+ query) in
  requests (snd (GetTradeOffersSummary APIBaseUrl decode_summary session lastVisitTime env w))
  = (requests w ++ [req])%list ∧
  (∀ resp response,
     Do (client session) (requests w) req = (Some resp, None) →
     decode_summary (Response.Body resp) = inr response →
     fst (GetTradeOffersSummary APIBaseUrl decode_summary session lastVisitTime env w)
     = Done (SummaryEnvelope.Inner response, None)).
Proof.
  cbn zeta.
  assert (Values_Encode (GetTradeOffersSummary_params session lastVisitTime)
          = if N.eqb lastVisitTime 0
            then "key=" +:+ url_QueryEscape (apiKey session)
            else "key=" +:+ url_QueryEscape (apiKey session)
                   +:+ "&time_last_visit=" +:+ strconv_FormatUint lastVisitTime) as Henc.
  { unfold GetTradeOffersSummary_params. destruct (N.eqb lastVisitTime 0); cbn [negb].
    - apply key_encoding.
    - by rewrite key_visit_encoding, QueryEscape_FormatUint. }
  unfold GetTradeOffersSummary. run_go. rewrite Henc. split.
  - destruct (Do _ _ _) as [[resp|] [e|]]; cbn; try done.
    destruct (decode_summary _); done.
  - intros resp response -> Hdec. cbn. by rewrite Hdec.
Qed.

(** X16. [GetRequiredSteamAppVersion] asks for [appid=<appID>&version=0]
    in one GET.  A transport error or an undecodable body gives
    version 0 with the error, and a decoded body gives its
    [required_version] without an error. *)
Theorem GetRequiredSteamAppVersion_outcomes session appID env w :
  let req := request_Get (apiUpToDateCheck APIBaseUrl +:+ "appid="
                            +:+ strconv_FormatInt appID +:+ "&version=0") in
  let answer := Do (client session) (requests w) req in
  let run := fst (GetRequiredSteamAppVersion APIBaseUrl decode_version session appID env w) in
  requests (snd (GetRequiredSteamAppVersion APIBaseUrl decode_version session appID env w))
  = (requests w ++ [req])%list ∧
  (∀ resp e, answer = (resp, Some e) → run = Done (0%Z, Some e)) ∧
  (∀ resp e, answer = (Some resp, None) → decode_version (Response.Body resp) = inl e →
     run = Done (0%Z, Some e)) ∧
  (∀ resp response, answer = (Some resp, None) →
     decode_version (Response.Body resp) = inr response →
     run = Done (UpToDateCheck.RequiredVersion (UpToDateCheck.Inner response), None)).
Proof.
  cbn zeta. unfold GetRequiredSteamAppVersion. run_go.
  rewrite appid_encoding, QueryEscape_FormatInt.
  split; [|split; [|split]].
  - destruct (Do _ _ _) as [[resp|] [e|]]; cbn; try done.
    destruct (decode_version _); done.
  - intros resp e ->. destruct resp; done.
  - intros resp e -> Hdec. cbn. by rewrite Hdec.
  - intros resp response -> Hdec. cbn. by rewrite Hdec.
Qed.

End QueriesFacts.

Lemma GetTradeOffersSummary_query_witness :
  fst (GetTradeOffersSummary sample_APIBaseUrl toy_Decode_Summary (page_session "{}") 0
         env0 world0) = Done (None, None)
  ∧ Request.URL <$> requests
      (snd (GetTradeOffersSummary sample_APIBaseUrl toy_Decode_Summary (page_session "{}")
              1700000000 env0 world0))
    = ["https://api.steampowered.com/IEconService/GetTradeOffersSummary/v1/?key=KEY&time_last_visit=1700000000"].
Proof.
  split.
  - exact (proj2 (GetTradeOffersSummary_query sample_APIBaseUrl toy_Decode_Summary
                    (page_session "{}") 0 env0 world0)
             (page_response "{}") (SummaryEnvelope.mk None) eq_refl eq_refl).
  - rewrite (proj1 (GetTradeOffersSummary_query sample_APIBaseUrl toy_Decode_Summary
                      (page_session "{}") 1700000000 env0 world0)).
    reflexivity.
Defined.

Lemma GetRequiredSteamAppVersion_outcomes_witness :
  fst (GetRequiredSteamAppVersion sample_APIBaseUrl toy_Decode_UpToDateCheck
         (session_of unreachable) 730 env0 world0)
  = Done (0%Z, Some (lib_error "net/http" "connection refused"))
  ∧ fst (GetRequiredSteamAppVersion sample_APIBaseUrl toy_Decode_UpToDateCheck
           (page_session "<html>") 730 env0 world0)
    = Done (0%Z, Some json_syntax_error)
  ∧ fst (GetRequiredSteamAppVersion sample_APIBaseUrl toy_Decode_UpToDateCheck
           (page_session version_body) 730 env0 world0)
    = Done (13872%Z, None).
Proof.
  split; [|split].
  - exact (proj1 (proj2 (GetRequiredSteamAppVersion_outcomes sample_APIBaseUrl
             toy_Decode_UpToDateCheck (session_of unreachable) 730 env0 world0))
             None _ eq_refl).
  - exact (proj1 (proj2 (proj2 (GetRequiredSteamAppVersion_outcomes sample_APIBaseUrl
             toy_Decode_UpToDateCheck (page_session "<html>") 730 env0 world0)))
             (page_response "<html>") _ eq_refl eq_refl).
  - exact (proj2 (proj2 (proj2 (GetRequiredSteamAppVersion_outcomes sample_APIBaseUrl
             toy_Decode_UpToDateCheck (page_session version_body) 730 env0 world0)))
             (page_response version_body)
             (UpToDateCheck.mk (UpToDateCheck.mkInner 13872)) eq_refl eq_refl).
Defined.

(** ** More facts about [SendTradeOffer] and [GetTradeOffers] *)

Lemma send_form_encoding (sid partner message content params : string) :
  Values_Encode
    (<["sessionid" := [sid]]>
    (<["serverid" := ["1"]]>
    (<["partner" := [partner]]>
    (<["tradeoffermessage" := [message]]>
    (<["json_tradeoffer" := [content]]>
    (<["trade_offer_create_params" := [params]]> ∅))))))
  = "json_tradeoffer=" +:+ url_QueryEscape content
      +:+ "&partner=" +:+ url_QueryEscape partner
      +:+ "&serverid=1"
      +:+ "&sessionid=" +:+ url_QueryEscape sid
      +:+ "&trade_offer_create_params=" +:+ url_QueryEscape params
      +:+ "&tradeoffermessage=" +:+ url_QueryEscape message.
Proof. encode_values. reflexivity. Qed.

(** X17. [SendTradeOffer] sends nothing when the offer cannot be
    marshalled or the request cannot be built, and otherwise one POST
    to the send endpoint, with the new-offer page of the partner as
    [Referer] and a form of six escaped fields: the marshalled items,
    the partner, [serverid=1], the session id, the access token
    wrapped in a JSON object, and the message. *)
Theorem SendTradeOffer_request_sent session offer sid token env w :
  requests (snd (SendTradeOffer session offer sid token env w))
  = match json_Marshal_result env (SendTradeOffer_content offer) with
    | inl _ => requests w
    | inr contentJSON =>
        match http_NewRequest_error env http_MethodPost send_url with
        | Some _ => requests w
        | None => (requests w ++ [SendTradeOffer_request session offer sid token contentJSON])%list
        end
    end ∧
  ∀ contentJSON,
    let req := SendTradeOffer_request session offer sid token contentJSON in
    Request.Method req = "POST" ∧
    Request.URL req = "https://steamcommunity.com/tradeoffer/new/send" ∧
    Request.Header req !! "Referer"
    = Some ["https://steamcommunity.com/tradeoffer/new/?partner="
              +:+ strconv_FormatUint (GetAccountID sid)
              +:+ "&token=" +:+ url_QueryEscape token] ∧
    Request.Header req !! "Content-Type" = Some ["application/x-www-form-urlencoded"] ∧
    Request.Body req
    = "json_tradeoffer=" +:+ url_QueryEscape contentJSON
        +:+ "&partner=" +:+ url_QueryEscape (ToString sid)
        +:+ "&serverid=1"
        +:+ "&sessionid=" +:+ url_QueryEscape (sessionID session)
        +:+ "&trade_offer_create_params="
        +:+ url_QueryEscape ("{" +:+ String "034" "trade_offer_access_token"
                               +:+ String "034" ":" +:+ String "034" token
                               +:+ String "034" "}")
        +:+ "&tradeoffermessage=" +:+ url_QueryEscape (Message offer).
Proof.
  split.
  - rewrite SendTradeOffer_run.
    destruct (json_Marshal_result env _); [done|].
    destruct (http_NewRequest_error env _ _); [done|]. cbn zeta.
    destruct (Do _ _ _) as [[resp|] [e|]]; try done.
    destruct (json_Decode_SendResponse _); [done|].
    destruct (negb _); [done|]. destruct (N.eqb _ _); done.
  - intros contentJSON. cbn zeta. split; [done|]. split; [done|]. split; [|split].
    + cbn. unfold Values_Set, Values_Add.
      rewrite lookup_insert_ne by done. rewrite lookup_insert_eq, lookup_empty.
      cbn. rewrite partner_token_encoding, QueryEscape_FormatUint. reflexivity.
    + cbn. unfold Values_Set. by rewrite lookup_insert_eq.
    + cbn. apply send_form_encoding.
Qed.

(** X18. [SendTradeOffer] consults neither the ID, the state, the
    timestamps nor the two flags of the offer it is given: two offers
    that agree on the other fields are sent alike, and a send that
    succeeds for one succeeds for the other with the same offer as
    result.  Nothing stops an offer already sent, or already accepted,
    from being sent anew. *)
Theorem SendTradeOffer_ignores_lifecycle_fields session o1 o2 sid token env w o' w' :
  Partner o1 = Partner o2 →
  ReceiptID o1 = ReceiptID o2 →
  RecvItems o1 = RecvItems o2 →
  SendItems o1 = SendItems o2 →
  Message o1 = Message o2 →
  ConfirmationMethod o1 = ConfirmationMethod o2 →
  EscrowEndDate o1 = EscrowEndDate o2 →
  SendTradeOffer session o1 sid token env w = (Done (o', None), w') →
  SendTradeOffer session o2 sid token env w = (Done (o', None), w').
Proof.
  intros Hp Hr Hrecv Hsend Hmsg Hcm Hesc.
  rewrite !SendTradeOffer_run.
  assert (SendTradeOffer_content o1 = SendTradeOffer_content o2) as ->
    by (unfold SendTradeOffer_content; by rewrite Hrecv, Hsend).
  destruct (json_Marshal_result env _) as [e|contentJSON]; [done|].
  destruct (http_NewRequest_error env _ _); [done|]. cbn zeta.
  assert (SendTradeOffer_request session o1 sid token contentJSON
          = SendTradeOffer_request session o2 sid token contentJSON) as ->
    by (unfold SendTradeOffer_request; by rewrite Hmsg).
  destruct (Do _ _ _) as [[resp|] [e|]]; try done.
  destruct (json_Decode_SendResponse _); [done|].
  destruct (negb _); [done|]. destruct (N.eqb _ _); [done|].
  by rewrite Hp, Hr, Hrecv, Hsend, Hmsg, Hcm, Hesc.
Qed.

Lemma SendTradeOffer_ignores_lifecycle_fields_witness :
  let run := SendTradeOffer (session_sending (sent_ok true false)) stale_offer partner42
               "tok" env0 world0 in
  State stale_offer = TradeStateAccepted ∧
  run = (Done (draft_offer_sent true, None), snd run).
Proof.
  intros run. split; [reflexivity|].
  assert (SendTradeOffer (session_sending (sent_ok true false)) draft_offer partner42
            "tok" env0 world0 = (Done (draft_offer_sent true, None), snd run)) as Hrun
    by (vm_compute; reflexivity).
  exact (SendTradeOffer_ignores_lifecycle_fields _ draft_offer stale_offer _ _ _ _ _ _
           eq_refl eq_refl eq_refl eq_refl eq_refl eq_refl eq_refl Hrun).
Defined.

(** X19. [GetTradeOffers] never panics: it hands back the [response]
    object of a decodable body as it is, nil when the body has none,
    without an error; any transport or decoding error comes back with
    a nil result. *)
Theorem GetTradeOffers_outcomes APIBaseUrl session filter T env w :
  let answer :=
    Do (client session) (requests w)
       (request_Get (apiGetTradeOffers APIBaseUrl
                       +:+ Values_Encode (GetTradeOffers_params session filter T))) in
  let run := fst (GetTradeOffers APIBaseUrl session filter T env w) in
  (∃ r, run = Done r) ∧
  (∀ resp e, answer = (resp, Some e) → run = Done (None, Some e)) ∧
  (∀ resp e, answer = (Some resp, None) →
     json_Decode_APIResponse (Response.Body resp) = inl e → run = Done (None, Some e)) ∧
  (∀ resp response, answer = (Some resp, None) →
     json_Decode_APIResponse (Response.Body resp) = inr response →
     run = Done (Inner response, None)).
Proof.
  cbn zeta. unfold GetTradeOffers. run_go. cbn [requests].
  split; [|split; [|split]].
  - destruct (Do _ _ _) as [[resp|] [e|]]; cbn; eauto.
    destruct (json_Decode_APIResponse _); cbn; eauto.
  - intros resp e ->. destruct resp; done.
  - intros resp e -> Hdec. cbn. by rewrite Hdec.
  - intros resp response -> Hdec. cbn. by rewrite Hdec.
Qed.

Lemma GetTradeOffers_outcomes_witness :
  fst (GetTradeOffers sample_APIBaseUrl
         (session_of (respond 200 (body_api (mkAPIResponse None)))) 3 1700000000
         env0 world0) = Done (None, None).
Proof.
  exact (proj2 (proj2 (proj2 (GetTradeOffers_outcomes sample_APIBaseUrl
           (session_of (respond 200 (body_api (mkAPIResponse None)))) 3 1700000000
           env0 world0)))
           (Response.mk 200 (λ _, EmptyString) (body_api (mkAPIResponse None)))
           (mkAPIResponse None) eq_refl eq_refl).
Defined.
